(** * Library management: Book, Member, Database and Library

    A shallow embedding of [src/library_management/src/{book,member,database,
    library}.py] and the properties of the borrow / return / fine workflow.

    Conventions of the embedding.
    - Python [int] is [Z]; Python [float] is the kernel's binary64 [float]
      with its IEEE operations ([PrimFloat]); [str] is [string].
    - A naive [datetime] is the number of microseconds since the epoch of the
      proleptic Gregorian calendar, a [timedelta] a number of microseconds;
      adding a timedelta is integer addition and [timedelta.days] is the floor
      of the quotient by the microseconds of a day (Python normalises a
      timedelta so that [0 <= seconds < 86400] and [0 <= microseconds < 10^6]).
    - A method that mutates [self] returns the new object next to its result.
    - Every reading of a clock ([datetime.now()], SQLite's
      [CURRENT_TIMESTAMP]) is an explicit argument of the call that reads it.
    - A statement that writes to the database takes a flag [io_ok]: [false]
      means that SQLite raised an [sqlite3.Error] other than the constraint
      violation the tables decide (disk full, database locked, ...).  Queries
      that only read are taken to succeed.
    - The columns [created_at] and [membership_date] and the attributes of the
      same names are written once and never read; they are left out. *)

From Stdlib Require Import ZArith Floats Lia.
From stdpp Require Import gmap strings list.

#[local] Open Scope string_scope.
#[local] Open Scope Z_scope.

(** ** Time *)

Definition datetime : Type := Z.
Definition timedelta : Type := Z.

Definition US_PER_DAY : Z := 86400000000.

(** [timedelta(days=n)] *)
Definition timedelta_of_days (n : Z) : timedelta := n * US_PER_DAY.

(** [td.days] of a normalised timedelta: floor division, so a negative
    duration of less than a day has [days = -1]. *)
Definition timedelta_days (td : timedelta) : Z := td `div` US_PER_DAY.

(** Python's conversion of an [int] to a [float] (what [int * float] does to
    its left operand): the nearest binary64, ties to even.  Python raises
    [OverflowError] where this gives an infinity; a count of days of a
    timedelta (below 10^9 in absolute value) is far from there. *)
Definition float_of_int (z : Z) : float :=
  SF2Prim (binary_normalize prec emax z 0 false).

(** ** book.py *)

Module Book.

Record t : Type := mk {
  isbn : string;
  title : string;
  author : string;
  publisher : string;
  publication_year : Z;
  total_copies : Z;
  available_copies : Z
}.

(** [Book.__init__]: [available_copies] starts at [total_copies]. *)
Definition init (isbn title author publisher : string)
    (publication_year total_copies : Z) : t :=
  mk isbn title author publisher publication_year total_copies total_copies.

Definition set_available_copies (self : t) (n : Z) : t :=
  mk (isbn self) (title self) (author self) (publisher self)
     (publication_year self) (total_copies self) n.

Definition borrow_copy (self : t) : bool * t :=
  if 0 <? available_copies self
  then (true, set_available_copies self (available_copies self - 1))
  else (false, self).

Definition return_copy (self : t) : bool * t :=
  if available_copies self <? total_copies self
  then (true, set_available_copies self (available_copies self + 1))
  else (false, self).

(** A call of one of the two mutators, for sequences of calls. *)
Inductive call : Type := BorrowCopy | ReturnCopy.

Definition run_call (self : t) (c : call) : t :=
  match c with
  | BorrowCopy => snd (borrow_copy self)
  | ReturnCopy => snd (return_copy self)
  end.

Definition run_calls (self : t) (cs : list call) : t :=
  fold_left run_call cs self.

(** The dictionary [get_availability] returns, as a record of its keys. *)
Record availability : Type := mk_availability {
  total : Z;
  available : Z;
  borrowed : Z
}.

Definition get_availability (self : t) : availability :=
  mk_availability (total_copies self) (available_copies self)
                  (total_copies self - available_copies self).

End Book.

(** ** member.py *)

(** [list.remove(x)] on a list that holds [x]: the first occurrence goes. *)
Fixpoint remove_first (x : string) (l : list string) : list string :=
  match l with
  | [] => []
  | y :: l' => if decide (x = y) then l' else y :: remove_first x l'
  end.

Module Member.

Record t : Type := mk {
  member_id : string;
  name : string;
  email : string;
  phone : string;
  address : string;
  is_active : bool;
  borrowed_books : list string;
  total_fines : float
}.

(** [Member.__init__] *)
Definition init (member_id name email phone address : string) : t :=
  mk member_id name email phone address true [] 0%float.

Definition set_is_active (self : t) (b : bool) : t :=
  mk (member_id self) (name self) (email self) (phone self) (address self)
     b (borrowed_books self) (total_fines self).

Definition set_borrowed_books (self : t) (l : list string) : t :=
  mk (member_id self) (name self) (email self) (phone self) (address self)
     (is_active self) l (total_fines self).

Definition set_total_fines (self : t) (x : float) : t :=
  mk (member_id self) (name self) (email self) (phone self) (address self)
     (is_active self) (borrowed_books self) x.

Definition add_borrowed_book (self : t) (book_id : string) : t :=
  if decide (book_id ∈ borrowed_books self)
  then self
  else set_borrowed_books self (borrowed_books self ++ [book_id]).

Definition remove_borrowed_book (self : t) (book_id : string) : bool * t :=
  if decide (book_id ∈ borrowed_books self)
  then (true, set_borrowed_books self (remove_first book_id (borrowed_books self)))
  else (false, self).

Definition get_borrowed_count (self : t) : Z :=
  Z.of_nat (length (borrowed_books self)).

Definition add_fine (self : t) (amount : float) : t :=
  set_total_fines self (total_fines self + amount)%float.

Definition pay_fine (self : t) (amount : float) : bool * t :=
  if (amount <=? total_fines self)%float
  then (true, set_total_fines self (total_fines self - amount)%float)
  else (false, self).

End Member.

(** ** database.py *)

(** What a call that may let an exception escape gives back. *)
Inductive result (A : Type) : Type :=
| Return (a : A)
| Raise_sqlite3_Error.
Arguments Return {A} a.
Arguments Raise_sqlite3_Error {A}.

Module Database.

(** A row of [books]; [isbn] is the primary key. *)
Record book_row : Type := mk_book_row {
  b_isbn : string;
  b_title : string;
  b_author : string;
  b_publisher : string;
  b_publication_year : Z;
  b_total_copies : Z;
  b_available_copies : Z
}.

(** A row of [members]; [member_id] is the primary key, [is_active] has the
    default 1 and [total_fines] the default 0.0. *)
Record member_row : Type := mk_member_row {
  m_member_id : string;
  m_name : string;
  m_email : string;
  m_phone : string;
  m_address : string;
  m_is_active : Z;
  m_total_fines : float
}.

(** A row of [borrowing_records].  [borrow_date] and [return_date] are
    readings of SQLite's clock ([CURRENT_TIMESTAMP], whole seconds);
    [due_date] is the datetime the caller passed; [return_date = None] is
    SQL's NULL. *)
Record borrowing_record : Type := mk_borrowing_record {
  record_id : Z;
  member_id : string;
  isbn : string;
  borrow_date : Z;
  due_date : datetime;
  return_date : option Z;
  fine_paid : float
}.

(** The database file: the three tables in rowid order, and the counter
    SQLite keeps for [AUTOINCREMENT]. *)
Record t : Type := mk {
  books : list book_row;
  members : list member_row;
  borrowing_records : list borrowing_record;
  sqlite_sequence : Z
}.

(** [init_db] on a path that holds no database yet. *)
Definition empty : t := mk [] [] [] 0.

Definition add_book (self : t) (isbn title author publisher : string)
    (publication_year total_copies : Z) (io_ok : bool) : result (bool * t) :=
  if negb io_ok then Raise_sqlite3_Error
  else if decide (isbn ∈ map b_isbn (books self))
  then Return (false, self)   (* sqlite3.IntegrityError: duplicate key *)
  else Return (true,
         mk (books self ++
               [mk_book_row isbn title author publisher publication_year
                            total_copies total_copies])
            (members self) (borrowing_records self) (sqlite_sequence self)).

Definition add_member (self : t) (member_id name email phone address : string)
    (io_ok : bool) : result (bool * t) :=
  if negb io_ok then Raise_sqlite3_Error
  else if decide (member_id ∈ map m_member_id (members self))
  then Return (false, self)   (* sqlite3.IntegrityError: duplicate key *)
  else Return (true,
         mk (books self)
            (members self ++
               [mk_member_row member_id name email phone address 1 0%float])
            (borrowing_records self) (sqlite_sequence self)).

(** [INSERT INTO borrowing_records (member_id, isbn, due_date)]: the other
    columns take their defaults.  [except sqlite3.Error: return False]. *)
Definition record_borrowing (self : t) (member_id isbn : string)
    (due_date : datetime) (current_timestamp : Z) (io_ok : bool) : bool * t :=
  if io_ok
  then (true,
        mk (books self) (members self)
           (borrowing_records self ++
              [mk_borrowing_record (sqlite_sequence self + 1) member_id isbn
                                   current_timestamp due_date None 0%float])
           (sqlite_sequence self + 1))
  else (false, self).

(** [WHERE member_id = ? AND isbn = ? AND return_date IS NULL] *)
Definition is_open_for (member_id isbn : string) (r : borrowing_record) : bool :=
  bool_decide (Database.member_id r = member_id)
  && bool_decide (Database.isbn r = isbn)
  && bool_decide (return_date r = None).

(** [SET return_date = CURRENT_TIMESTAMP, fine_paid = ?] on one row *)
Definition set_returned (current_timestamp : Z) (fine_paid : float)
    (r : borrowing_record) : borrowing_record :=
  mk_borrowing_record (record_id r) (Database.member_id r) (Database.isbn r)
                      (borrow_date r) (due_date r)
                      (Some current_timestamp) fine_paid.

(** The [UPDATE] of [record_return]: every row the [WHERE] clause selects. *)
Definition record_return (self : t) (member_id isbn : string)
    (fine_paid : float) (current_timestamp : Z) (io_ok : bool) : bool * t :=
  if io_ok
  then (true,
        mk (books self) (members self)
           (map (fun r => if is_open_for member_id isbn r
                          then set_returned current_timestamp fine_paid r
                          else r)
                (borrowing_records self))
           (sqlite_sequence self))
  else (false, self).

(** [ORDER BY borrow_date DESC LIMIT 1] over rows given in rowid order.
    SQLite does not say which of several rows with the greatest
    [borrow_date] comes first; here it is the one of least rowid, and the
    theorems below hold for any choice. *)
Fixpoint order_by_borrow_date_desc_limit_1 (rows : list borrowing_record)
    : option borrowing_record :=
  match rows with
  | [] => None
  | r :: rows' =>
      match order_by_borrow_date_desc_limit_1 rows' with
      | None => Some r
      | Some r' => if borrow_date r <? borrow_date r' then Some r' else Some r
      end
  end.

(** The query of [Library._calculate_fine]:
    [SELECT due_date FROM borrowing_records
     WHERE member_id = ? AND isbn = ? AND return_date IS NULL
     ORDER BY borrow_date DESC LIMIT 1], as [fetchone] returns it. *)
Definition select_latest_open (self : t) (member_id isbn : string)
    : option borrowing_record :=
  order_by_borrow_date_desc_limit_1
    (filter (fun r => is_open_for member_id isbn r = true)
            (borrowing_records self)).

(** [SELECT * FROM books WHERE isbn = ?] and [fetchone]: the first row of
    the key, [None] without one. *)
Definition get_book (self : t) (isbn : string) : option book_row :=
  head (filter (fun r => b_isbn r = isbn) (books self)).

(** [SELECT * FROM members WHERE member_id = ?] and [fetchone]. *)
Definition get_member (self : t) (member_id : string) : option member_row :=
  head (filter (fun r => m_member_id r = member_id) (members self)).

(** SQLite's [LIKE] folds the case of the ASCII letters and of nothing
    else.  A character is one character of a [string]. *)
Definition like_fold (c : Ascii.ascii) : Ascii.ascii :=
  let n := Ascii.N_of_ascii c in
  if ((65 <=? n) && (n <=? 90))%N then Ascii.ascii_of_N (n + 32) else c.

(** The two wildcards of [LIKE], [%] and [_]. *)
Definition like_any_run : Ascii.ascii := Ascii.ascii_of_N 37.
Definition like_any_one : Ascii.ascii := Ascii.ascii_of_N 95.

(** [text LIKE pattern] without an ESCAPE clause: [%] stands for any run of
    characters, the empty one too, [_] for any one character, and every
    other character for itself up to [like_fold]. *)
Fixpoint like (pattern text : string) : bool :=
  match pattern with
  | EmptyString =>
      match text with EmptyString => true | String _ _ => false end
  | String c pattern' =>
      if Ascii.eqb c like_any_run
      then (fix any (text : string) : bool :=
              like pattern' text
              || match text with
                 | EmptyString => false
                 | String _ text' => any text'
                 end) text
      else match text with
           | EmptyString => false
           | String d text' =>
               (Ascii.eqb c like_any_one || Ascii.eqb (like_fold c) (like_fold d))
               && like pattern' text'
           end
  end.

(** [SELECT * FROM books WHERE title LIKE ? OR author LIKE ?] with both
    parameters [f"%{query}%"]; [fetchall] keeps the rowid order. *)
Definition search_books (self : t) (query : string) : list book_row :=
  let pattern := "%" +:+ query +:+ "%" in
  List.filter (fun r => like pattern (b_title r) || like pattern (b_author r))
              (books self).

End Database.

(** ** library.py *)

(** The second component of the tuples [borrow_book] and [return_book]
    return.  The fixed messages keep their text; the two f-strings keep the
    values they format ([book.title] and [due_date.date()]; [book.title] and
    the fine, present when [fine > 0]). *)
Inductive message : Type :=
| Text (s : string)
| BorrowedSuccessfully (title : string) (due_date : datetime)
| ReturnedSuccessfully (title : string) (fine_applied : option float).

Module Library.

Definition BORROWING_PERIOD_DAYS : Z := 14.
Definition DAILY_FINE : float := 1%float.

Record t : Type := mk {
  database : Database.t;
  books : gmap string Book.t;
  members : gmap string Member.t
}.

(** One iteration of the first loop of [_load_from_db]. *)
Definition load_book (books : gmap string Book.t) (row : Database.book_row)
    : gmap string Book.t :=
  let book := Book.init (Database.b_isbn row) (Database.b_title row)
                (Database.b_author row) (Database.b_publisher row)
                (Database.b_publication_year row) (Database.b_total_copies row) in
  let book := Book.set_available_copies book (Database.b_available_copies row) in
  <[Database.b_isbn row := book]> books.

(** One iteration of the second loop; [bool(row['is_active'])]. *)
Definition load_member (members : gmap string Member.t)
    (row : Database.member_row) : gmap string Member.t :=
  let member := Member.init (Database.m_member_id row) (Database.m_name row)
                  (Database.m_email row) (Database.m_phone row)
                  (Database.m_address row) in
  let member := Member.set_is_active member
                  (negb (Database.m_is_active row =? 0)) in
  let member := Member.set_total_fines member (Database.m_total_fines row) in
  <[Database.m_member_id row := member]> members.

Definition _load_from_db (self : t) : t :=
  mk (database self)
     (fold_left load_book (Database.books (database self)) (books self))
     (fold_left load_member (Database.members (database self)) (members self)).

(** [Library.__init__] on the database file [db]. *)
Definition init (db : Database.t) : t :=
  _load_from_db (mk db ∅ ∅).

Definition add_book (self : t) (isbn title author publisher : string)
    (publication_year total_copies : Z) (io_ok : bool) : result (bool * t) :=
  if decide (is_Some (books self !! isbn)) then Return (false, self)
  else
    match Database.add_book (database self) isbn title author publisher
            publication_year total_copies io_ok with
    | Raise_sqlite3_Error => Raise_sqlite3_Error
    | Return (true, db) =>
        let book := Book.init isbn title author publisher
                      publication_year total_copies in
        Return (true, mk db (<[isbn := book]> (books self)) (members self))
    | Return (false, db) => Return (false, mk db (books self) (members self))
    end.

Definition add_member (self : t) (member_id name email phone address : string)
    (io_ok : bool) : result (bool * t) :=
  if decide (is_Some (members self !! member_id)) then Return (false, self)
  else
    match Database.add_member (database self) member_id name email phone
            address io_ok with
    | Raise_sqlite3_Error => Raise_sqlite3_Error
    | Return (true, db) =>
        let member := Member.init member_id name email phone address in
        Return (true, mk db (books self) (<[member_id := member]> (members self)))
    | Return (false, db) => Return (false, mk db (books self) (members self))
    end.

(** [now] is the reading of [datetime.now()], [current_timestamp] the one of
    SQLite's clock when the record is inserted. *)
Definition borrow_book (self : t) (member_id isbn : string)
    (now : datetime) (current_timestamp : Z) (io_ok : bool)
    : (bool * message) * t :=
  match members self !! member_id with
  | None => ((false, Text "Member not found"), self)
  | Some member =>
  match books self !! isbn with
  | None => ((false, Text "Book not found"), self)
  | Some book =>
    if negb (Member.is_active member)
    then ((false, Text "Member is not active"), self)
    else
      let '(ok, book) := Book.borrow_copy book in
      if negb ok then ((false, Text "Book not available"), self)
      else
        let member := Member.add_borrowed_book member isbn in
        let due_date := now + timedelta_of_days BORROWING_PERIOD_DAYS in
        let '(ok, db) := Database.record_borrowing (database self) member_id
                           isbn due_date current_timestamp io_ok in
        if ok
        then ((true, BorrowedSuccessfully (Book.title book) due_date),
              mk db (<[isbn := book]> (books self))
                    (<[member_id := member]> (members self)))
        else
          (* Revert changes if database operation failed *)
          let book := snd (Book.return_copy book) in
          let member := snd (Member.remove_borrowed_book member isbn) in
          ((false, Text "Failed to record borrowing"),
           mk db (<[isbn := book]> (books self))
                 (<[member_id := member]> (members self)))
  end
  end.

(** [now_test] is the [datetime.now()] compared with the due date and
    [now_diff] the one the due date is subtracted from. *)
Definition _calculate_fine (self : t) (member_id isbn : string)
    (now_test now_diff : datetime) : float :=
  match Database.select_latest_open (database self) member_id isbn with
  | None => 0%float
  | Some result =>
      let due_date := Database.due_date result in
      if due_date <? now_test
      then
        let days_overdue := timedelta_days (now_diff - due_date) in
        (float_of_int days_overdue * DAILY_FINE)%float
      else 0%float
  end.

Definition return_book (self : t) (member_id isbn : string)
    (now_test now_diff : datetime) (current_timestamp : Z) (io_ok : bool)
    : (bool * message) * t :=
  match members self !! member_id with
  | None => ((false, Text "Member not found"), self)
  | Some member =>
  match books self !! isbn with
  | None => ((false, Text "Book not found"), self)
  | Some book =>
    let '(ok, member) := Member.remove_borrowed_book member isbn in
    if negb ok
    then ((false, Text "This book was not borrowed by this member"), self)
    else
      let book := snd (Book.return_copy book) in
      let fine := _calculate_fine self member_id isbn now_test now_diff in
      let member := if (0 <? fine)%float then Member.add_fine member fine
                    else member in
      let '(ok, db) := Database.record_return (database self) member_id isbn
                         fine current_timestamp io_ok in
      let self' := mk db (<[isbn := book]> (books self))
                         (<[member_id := member]> (members self)) in
      if ok
      then ((true, ReturnedSuccessfully (Book.title book)
                     (if (0 <? fine)%float then Some fine else None)),
            self')
      else ((false, Text "Failed to record return"), self')
  end
  end.

(** [search_books]: the books of memory for the rows the database finds, a
    row whose isbn memory does not know being skipped. *)
Definition search_books (self : t) (query : string) : list Book.t :=
  omap (fun row => books self !! Database.b_isbn row)
       (Database.search_books (database self) query).

(** [sum(f(x) for x in d.values())] over integers. *)
Definition sum_values {A : Type} (f : A -> Z) (d : gmap string A) : Z :=
  foldr (fun kv acc => f kv.2 + acc) 0 (map_to_list d).

(** The dictionary of [get_library_stats], as a record of its keys. *)
Record stats : Type := mk_stats {
  total_members : Z;
  active_members : Z;
  total_books_inventory : Z;
  borrowed_books : Z;
  available_books : Z;
  unique_titles : Z
}.

Definition get_library_stats (self : t) : stats :=
  let total_books := sum_values Book.total_copies (books self) in
  let borrowed_books :=
    sum_values (fun book => Book.total_copies book - Book.available_copies book)
               (books self) in
  mk_stats (Z.of_nat (size (members self)))
           (sum_values (fun m => if Member.is_active m then 1 else 0)
                       (members self))
           total_books
           borrowed_books
           (total_books - borrowed_books)
           (Z.of_nat (size (books self))).

End Library.

(** ** Sequences of Library calls *)

Module Trace.

(** One call of a mutating operation of [Library], with the readings of the
    clocks and the fate of the database write it meets. *)
Inductive call : Type :=
| AddBook (isbn title author publisher : string)
          (publication_year total_copies : Z) (io_ok : bool)
| AddMember (member_id name email phone address : string) (io_ok : bool)
| BorrowBook (member_id isbn : string) (now : datetime)
             (current_timestamp : Z) (io_ok : bool)
| ReturnBook (member_id isbn : string) (now_test now_diff : datetime)
             (current_timestamp : Z) (io_ok : bool).

(** The library after the call; an exception that escapes [add_book] or
    [add_member] is raised before anything is written. *)
Definition run_call (self : Library.t) (c : call) : Library.t :=
  match c with
  | AddBook isbn title author publisher year copies io_ok =>
      match Library.add_book self isbn title author publisher year copies io_ok with
      | Return (_, self') => self'
      | Raise_sqlite3_Error => self
      end
  | AddMember member_id name email phone address io_ok =>
      match Library.add_member self member_id name email phone address io_ok with
      | Return (_, self') => self'
      | Raise_sqlite3_Error => self
      end
  | BorrowBook member_id isbn now ts io_ok =>
      snd (Library.borrow_book self member_id isbn now ts io_ok)
  | ReturnBook member_id isbn now_test now_diff ts io_ok =>
      snd (Library.return_book self member_id isbn now_test now_diff ts io_ok)
  end.

Definition run_calls (self : Library.t) (cs : list call) : Library.t :=
  fold_left run_call cs self.

(** A library opened on a new database file. *)
Definition fresh : Library.t := Library.init Database.empty.

(** The member [member_id] holds [isbn] according to the in-memory list. *)
Definition holds (self : Library.t) (member_id isbn : string) : Prop :=
  exists member, Library.members self !! member_id = Some member
                 /\ isbn ∈ Member.borrowed_books member.

(** The discipline under which the store keeps one open record per pair:
    [borrow_book] is called only for a pair the member does not hold, and
    the database write of [return_book] does not fail. *)
Definition admissible (self : Library.t) (c : call) : Prop :=
  match c with
  | BorrowBook member_id isbn _ _ _ => ~ holds self member_id isbn
  | ReturnBook _ _ _ _ _ io_ok => io_ok = true
  | _ => True
  end.

Fixpoint disciplined (self : Library.t) (cs : list call) : Prop :=
  match cs with
  | [] => True
  | c :: cs' => admissible self c /\ disciplined (run_call self c) cs'
  end.

End Trace.

(** ** Statements about the store *)

(** The open borrowing records of a pair, in rowid order. *)
Definition open_records (db : Database.t) (member_id isbn : string)
    : list Database.borrowing_record :=
  filter (fun r => Database.is_open_for member_id isbn r = true)
         (Database.borrowing_records db).

(** At most one borrowing record of each pair has [return_date] NULL. *)
Definition at_most_one_open (db : Database.t) : Prop :=
  forall member_id isbn : string,
    (length (open_records db member_id isbn) <= 1)%nat.

(** The fine in the words of the specification: zero without an open record;
    otherwise, past the due date, the whole days elapsed since the due date
    (the quotient truncated toward zero) times the daily rate 1.0; zero when
    the due date has not passed. *)
Definition spec_fine (open : option Database.borrowing_record) (now : datetime)
    : float :=
  match open with
  | None => 0%float
  | Some r =>
      if Database.due_date r <? now
      then (float_of_int ((now - Database.due_date r) `quot` US_PER_DAY) * 1)%float
      else 0%float
  end.

(** C6 as the specification words it: a successful [return_book] changes no
    borrowing record but the most recent open one of the pair. *)
Definition return_touches_only_latest_open : Prop :=
  forall (self self' : Library.t) (member_id isbn : string)
         (now_test now_diff : datetime) (ts : Z) (msg : message),
    Library.return_book self member_id isbn now_test now_diff ts true
    = ((true, msg), self') ->
    forall (k : nat) (r : Database.borrowing_record),
      Database.borrowing_records (Library.database self) !! k = Some r ->
      Database.select_latest_open (Library.database self) member_id isbn
      <> Some r ->
      Database.borrowing_records (Library.database self') !! k = Some r.

(** The open records a pair already has do not mislead the fine of a loan
    taken at [now] and stamped [current_timestamp] by the store: each is
    older than the new record or not yet overdue.  With clocks that do not
    run backwards every store satisfies this, since a record overdue at [now]
    was written fourteen days before. *)
Definition open_records_older_or_not_due (db : Database.t)
    (member_id isbn : string) (now : datetime) (current_timestamp : Z) : Prop :=
  forall r : Database.borrowing_record,
    r ∈ open_records db member_id isbn ->
    Database.borrow_date r < current_timestamp \/ now <= Database.due_date r.

(** Every open borrowing record belongs to a pair whose member holds the
    title in memory: what the store and the lists agree on as long as the
    discipline of [Trace.admissible] is kept. *)
Definition open_implies_held (self : Library.t) : Prop :=
  forall (member_id isbn : string) (r : Database.borrowing_record),
    r ∈ open_records (Library.database self) member_id isbn ->
    Trace.holds self member_id isbn.

(** The lists of all members are free of repetitions. *)
Definition borrowed_books_NoDup (members : gmap string Member.t) : Prop :=
  forall (id : string) (m : Member.t),
    members !! id = Some m -> NoDup (Member.borrowed_books m).

(** ** Clocks that run forward

    SQLite's [CURRENT_TIMESTAMP] is the system clock in UTC, cut to whole
    seconds; [datetime.now()] is the same clock in local time, [utc_offset]
    microseconds ahead. *)
Definition sqlite_clock (utc_offset : Z) (now : datetime) : Z :=
  (now - utc_offset) `div` 1000000.

(** A borrowing record written at some time [t <= now] by [borrow_book]. *)
Definition stamped_by (utc_offset : Z) (now : datetime)
    (r : Database.borrowing_record) : Prop :=
  exists t : datetime,
    t <= now
    /\ Database.borrow_date r = sqlite_clock utc_offset t
    /\ Database.due_date r = t + timedelta_of_days Library.BORROWING_PERIOD_DAYS.

(** A call made no later than [now], its two readings taken from one clock. *)
Definition call_stamped (utc_offset : Z) (now : datetime) (c : Trace.call)
    : Prop :=
  match c with
  | Trace.BorrowBook _ _ t ts _ => t <= now /\ ts = sqlite_clock utc_offset t
  | _ => True
  end.

(** No book has more copies available than it has copies. *)
Definition books_within_total (books : gmap string Book.t) : Prop :=
  forall (isbn : string) (b : Book.t),
    books !! isbn = Some b -> Book.available_copies b <= Book.total_copies b.

(** ** The state a return leaves in memory *)

(** The in-memory state [return_book] leaves once the member was found to
    hold the book: the copy is back, the isbn is off the list, and a positive
    fine is on the account. *)
Definition returned_book (book : Book.t) : Book.t :=
  snd (Book.return_copy book).

Definition returned_member (member : Member.t) (isbn : string) (fine : float)
    : Member.t :=
  let member := Member.set_borrowed_books member
                  (remove_first isbn (Member.borrowed_books member)) in
  if (0 <? fine)%float then Member.add_fine member fine else member.

(** ** A small library, for the examples

    One title with two copies and one member, as in the scenarios of the
    specification; then the member on loan once and twice. *)

Definition day (n : Z) : datetime := n * US_PER_DAY.

Definition demo_isbn : string := "1111111111".

Definition demo_library : Library.t :=
  Trace.run_calls Trace.fresh
    [Trace.AddBook demo_isbn "X" "Y" "Z" 2020 2 true;
     Trace.AddMember "M1" "Ann" "ann@example.org" "555-0100" "1 Main St" true].

Definition demo_on_loan : Library.t :=
  Trace.run_call demo_library (Trace.BorrowBook "M1" demo_isbn (day 0) 0 true).

Definition demo_on_loan_twice : Library.t :=
  Trace.run_call demo_on_loan (Trace.BorrowBook "M1" demo_isbn (day 1) 86400 true).

Definition demo_book (available_copies : Z) : Book.t :=
  Book.mk demo_isbn "X" "Y" "Z" 2020 2 available_copies.

Definition demo_member (borrowed_books : list string) (total_fines : float)
    : Member.t :=
  Member.mk "M1" "Ann" "ann@example.org" "555-0100" "1 Main St" true
            borrowed_books total_fines.

Definition demo_record (record_id borrow_date : Z) (due_date : datetime)
    (return_date : option Z) (fine_paid : float) : Database.borrowing_record :=
  Database.mk_borrowing_record record_id "M1" demo_isbn borrow_date due_date
                               return_date fine_paid.

(** The calls behind [demo_on_loan_twice], and a run that keeps the
    discipline: the second loan comes after the return of the first. *)
Definition demo_calls_borrow_twice : list Trace.call :=
  [Trace.AddBook demo_isbn "X" "Y" "Z" 2020 2 true;
   Trace.AddMember "M1" "Ann" "ann@example.org" "555-0100" "1 Main St" true;
   Trace.BorrowBook "M1" demo_isbn (day 0) 0 true;
   Trace.BorrowBook "M1" demo_isbn (day 1) 86400 true].

Definition demo_calls_disciplined : list Trace.call :=
  [Trace.AddBook demo_isbn "X" "Y" "Z" 2020 2 true;
   Trace.AddMember "M1" "Ann" "ann@example.org" "555-0100" "1 Main St" true;
   Trace.BorrowBook "M1" demo_isbn (day 0) 0 true;
   Trace.ReturnBook "M1" demo_isbn (day 1) (day 1) 86400 true;
   Trace.BorrowBook "M1" demo_isbn (day 2) 172800 true].

(** ** What the database keeps of a book and of a member *)

(** The row [add_book] writes for a book; nothing updates it afterwards. *)
Definition row_of_book (b : Book.t) : Database.book_row :=
  Database.mk_book_row (Book.isbn b) (Book.title b) (Book.author b)
                       (Book.publisher b) (Book.publication_year b)
                       (Book.total_copies b) (Book.total_copies b).

(** The row [add_member] writes for a member. *)
Definition row_of_member (m : Member.t) : Database.member_row :=
  Database.mk_member_row (Member.member_id m) (Member.name m) (Member.email m)
                         (Member.phone m) (Member.address m) 1 0%float.

(** A book and a member as a library reopened on the database has them. *)
Definition reopened_book (b : Book.t) : Book.t :=
  Book.set_available_copies b (Book.total_copies b).

Definition reopened_member (m : Member.t) : Member.t :=
  Member.mk (Member.member_id m) (Member.name m) (Member.email m)
            (Member.phone m) (Member.address m) true [] 0%float.

(** ** Searching without wildcards *)




(** ** The ledger and the counters *)

(** Every title a member holds in memory has an open borrowing record. *)
Definition held_implies_open (self : Library.t) : Prop :=
  forall member_id isbn : string,
    Trace.holds self member_id isbn ->
    open_records (Library.database self) member_id isbn <> [].

(** The open borrowing records of a title, whoever the member. *)
Definition open_records_of_isbn (db : Database.t) (isbn : string)
    : list Database.borrowing_record :=
  filter (fun r => Database.isbn r = isbn /\ Database.return_date r = None)
         (Database.borrowing_records db).

(** The copies out of each book are as many as the open records of its
    title, and a title memory does not know has no open record. *)
Definition copies_match_ledger (self : Library.t) : Prop :=
  (forall (isbn : string) (b : Book.t),
     Library.books self !! isbn = Some b ->
     Book.total_copies b - Book.available_copies b
     = Z.of_nat (length (open_records_of_isbn (Library.database self) isbn)))
  /\ (forall isbn : string,
        Library.books self !! isbn = None ->
        open_records_of_isbn (Library.database self) isbn = []).

(** * Properties *)

(** ** Floats: the two comparisons [pay_fine] and its callers rely on *)

Lemma SFcompare_Lt_swap (x y : spec_float) :
  SFcompare x y = Some Lt -> SFcompare y x = Some Gt.
Proof.
  destruct x as [sx|sx| |sx mx ex], y as [sy|sy| |sy my ey]; simpl;
    try destruct sx; try destruct sy; try discriminate; try reflexivity.
  - rewrite (Z.compare_antisym ey ex).
    destruct (ey ?= ex)%Z eqn:E; simpl; try discriminate; try reflexivity.
    rewrite !Pos.compare_cont_spec; simpl.
    rewrite (Pos.compare_antisym my mx).
    destruct (my ?= mx)%positive; simpl; try discriminate; reflexivity.
  - rewrite (Z.compare_antisym ey ex).
    destruct (ey ?= ex)%Z eqn:E; simpl; try discriminate; try reflexivity.
    rewrite !Pos.compare_cont_spec; simpl.
    rewrite (Pos.compare_antisym my mx).
    destruct (my ?= mx)%positive; simpl; try discriminate; reflexivity.
Qed.

Lemma float_ltb_not_leb (x y : float) :
  (x <? y)%float = true -> (y <=? x)%float = false.
Proof.
  rewrite ltb_spec, leb_spec. unfold SFltb, SFleb.
  destruct (SFcompare (Prim2SF x) (Prim2SF y)) as [[]|] eqn:E; try discriminate.
  intros _. now rewrite (SFcompare_Lt_swap _ _ E).
Qed.

(** ** Book *)

Lemma borrow_copy_bounds (b : Book.t) :
  0 <= Book.available_copies b <= Book.total_copies b ->
  0 <= Book.available_copies (snd (Book.borrow_copy b)) <= Book.total_copies b
  /\ Book.total_copies (snd (Book.borrow_copy b)) = Book.total_copies b.
Proof.
  unfold Book.borrow_copy. intros H.
  destruct (0 <? Book.available_copies b) eqn:E; simpl; [|lia].
  apply Z.ltb_lt in E. lia.
Qed.

Lemma return_copy_bounds (b : Book.t) :
  0 <= Book.available_copies b <= Book.total_copies b ->
  0 <= Book.available_copies (snd (Book.return_copy b)) <= Book.total_copies b
  /\ Book.total_copies (snd (Book.return_copy b)) = Book.total_copies b.
Proof.
  unfold Book.return_copy. intros H.
  destruct (Book.available_copies b <? Book.total_copies b) eqn:E; simpl; [|lia].
  apply Z.ltb_lt in E. lia.
Qed.

Lemma run_calls_bounds (cs : list Book.call) : forall b : Book.t,
  0 <= Book.available_copies b <= Book.total_copies b ->
  0 <= Book.available_copies (Book.run_calls b cs)
       <= Book.total_copies (Book.run_calls b cs)
  /\ Book.total_copies (Book.run_calls b cs) = Book.total_copies b.
Proof.
  induction cs as [|c cs IH]; intros b Hb; simpl.
  - lia.
  - assert (Hstep : 0 <= Book.available_copies (Book.run_call b c)
                      <= Book.total_copies (Book.run_call b c)
                    /\ Book.total_copies (Book.run_call b c) = Book.total_copies b).
    { destruct c; simpl.
      - destruct (borrow_copy_bounds b Hb) as [? Ht]. rewrite Ht. auto.
      - destruct (return_copy_bounds b Hb) as [? Ht]. rewrite Ht. auto. }
    destruct Hstep as [Hinv Ht].
    destruct (IH _ Hinv) as [? Ht']. unfold Book.run_calls in *. simpl.
    split; [assumption | congruence].
Qed.

(** C3. A book created with [total_copies >= 0] keeps
    [0 <= available_copies <= total_copies] (and its [total_copies]) through
    every sequence of [borrow_copy] and [return_copy] calls; [borrow_copy] on
    a book with no available copy and [return_copy] on a book with all its
    copies available return [False] and leave the book as it is. *)
Theorem book_available_copies_bounded
    (isbn title author publisher : string) (publication_year total_copies : Z)
    (cs : list Book.call) :
  0 <= total_copies ->
  let b := Book.run_calls
             (Book.init isbn title author publisher publication_year total_copies)
             cs in
  (0 <= Book.available_copies b <= Book.total_copies b
   /\ Book.total_copies b = total_copies)
  /\ (forall b' : Book.t,
        Book.available_copies b' = 0 -> Book.borrow_copy b' = (false, b'))
  /\ (forall b' : Book.t,
        Book.available_copies b' = Book.total_copies b' ->
        Book.return_copy b' = (false, b')).
Proof.
  intros Htotal b. split; [|split].
  - subst b. apply run_calls_bounds. simpl. lia.
  - intros b' H0. unfold Book.borrow_copy. rewrite H0. reflexivity.
  - intros b' Hfull. unfold Book.return_copy. rewrite Hfull, Z.ltb_irrefl.
    reflexivity.
Qed.

Lemma book_available_copies_bounded_witness :
  0 <= 2
  /\ let b := Book.run_calls (Book.init "1111111111" "X" "Y" "Z" 2020 2)
                [Book.BorrowCopy; Book.BorrowCopy; Book.BorrowCopy;
                 Book.ReturnCopy; Book.ReturnCopy; Book.ReturnCopy] in
     (0 <= Book.available_copies b <= Book.total_copies b
      /\ Book.total_copies b = 2)
     /\ (forall b' : Book.t,
           Book.available_copies b' = 0 -> Book.borrow_copy b' = (false, b'))
     /\ (forall b' : Book.t,
           Book.available_copies b' = Book.total_copies b' ->
           Book.return_copy b' = (false, b')).
Proof.
  split; [lia|].
  apply (book_available_copies_bounded "1111111111" "X" "Y" "Z" 2020 2). lia.
Defined.

(** ** Member *)

(** C8. [pay_fine amount] returns [True] exactly when
    [amount <= total_fines]; it then replaces [total_fines] by
    [total_fines - amount] (Python's float subtraction) and touches nothing
    else; when [amount > total_fines] it returns [False] and the member is
    unchanged. *)
Theorem pay_fine_iff_covered (m : Member.t) (amount : float) :
  (fst (Member.pay_fine m amount) = true
   <-> (amount <=? Member.total_fines m)%float = true)
  /\ ((amount <=? Member.total_fines m)%float = true ->
      Member.pay_fine m amount
      = (true, Member.set_total_fines m (Member.total_fines m - amount)%float)
      /\ Member.total_fines (snd (Member.pay_fine m amount))
         = (Member.total_fines m - amount)%float)
  /\ ((Member.total_fines m <? amount)%float = true ->
      Member.pay_fine m amount = (false, m)).
Proof.
  unfold Member.pay_fine. split; [|split].
  - destruct (amount <=? Member.total_fines m)%float; simpl; split; congruence.
  - intros ->. split; reflexivity.
  - intros Hgt. rewrite (float_ltb_not_leb _ _ Hgt). reflexivity.
Qed.

Example pay_fine_part :
  Member.pay_fine (Member.mk "M1" "Ann" "a@b.c" "1" "Home" true [] 14%float) 5%float
  = (true, Member.mk "M1" "Ann" "a@b.c" "1" "Home" true [] 9%float).
Proof. reflexivity. Qed.

Example pay_fine_overpayment :
  Member.pay_fine (Member.mk "M1" "Ann" "a@b.c" "1" "Home" true [] 3%float) 5%float
  = (false, Member.mk "M1" "Ann" "a@b.c" "1" "Home" true [] 3%float).
Proof. reflexivity. Qed.

(** ** The query of the fine *)

Lemma order_by_limit_1_None (rows : list Database.borrowing_record) :
  Database.order_by_borrow_date_desc_limit_1 rows = None <-> rows = [].
Proof.
  destruct rows as [|r rows]; simpl; [tauto|].
  split; [|discriminate].
  destruct (Database.order_by_borrow_date_desc_limit_1 rows) as [r'|];
    [destruct (Database.borrow_date r <? Database.borrow_date r')|];
    discriminate.
Qed.

Lemma order_by_limit_1_Some (rows : list Database.borrowing_record) :
  forall r, Database.order_by_borrow_date_desc_limit_1 rows = Some r ->
  r ∈ rows
  /\ forall r', r' ∈ rows -> Database.borrow_date r' <= Database.borrow_date r.
Proof.
  induction rows as [|r0 rows IH]; simpl; intros r Hr; [discriminate|].
  destruct (Database.order_by_borrow_date_desc_limit_1 rows) as [r1|] eqn:E.
  - destruct (IH r1 eq_refl) as [Hin Hmax].
    destruct (Database.borrow_date r0 <? Database.borrow_date r1) eqn:Hlt;
      inversion Hr; subst r; clear Hr.
    + apply Z.ltb_lt in Hlt. split; [right; exact Hin|].
      intros r' Hr'. apply elem_of_cons in Hr' as [->|Hr']; [lia|auto].
    + apply Z.ltb_ge in Hlt. split; [left|].
      intros r' Hr'. apply elem_of_cons in Hr' as [->|Hr']; [lia|].
      specialize (Hmax r' Hr'). lia.
  - inversion Hr; subst r; clear Hr.
    apply order_by_limit_1_None in E. subst rows. split; [left|].
    intros r' Hr'. apply elem_of_cons in Hr' as [->|Hr']; [lia|].
    inversion Hr'.
Qed.

Lemma elem_of_open_records (db : Database.t) (member_id isbn : string)
    (r : Database.borrowing_record) :
  r ∈ open_records db member_id isbn
  <-> r ∈ Database.borrowing_records db
      /\ Database.is_open_for member_id isbn r = true.
Proof. unfold open_records. rewrite list_elem_of_filter. tauto. Qed.

Lemma select_latest_open_None (db : Database.t) (member_id isbn : string) :
  Database.select_latest_open db member_id isbn = None
  <-> open_records db member_id isbn = [].
Proof. apply order_by_limit_1_None. Qed.

Lemma select_latest_open_Some (db : Database.t) (member_id isbn : string)
    (r : Database.borrowing_record) :
  Database.select_latest_open db member_id isbn = Some r ->
  r ∈ open_records db member_id isbn
  /\ forall r', r' ∈ open_records db member_id isbn ->
                Database.borrow_date r' <= Database.borrow_date r.
Proof. apply order_by_limit_1_Some. Qed.

Lemma is_open_for_true (member_id isbn : string) (r : Database.borrowing_record) :
  Database.is_open_for member_id isbn r = true
  <-> Database.member_id r = member_id /\ Database.isbn r = isbn
      /\ Database.return_date r = None.
Proof.
  unfold Database.is_open_for.
  rewrite !andb_true_iff, !bool_decide_eq_true. tauto.
Qed.

(** C4. The fine [_calculate_fine] computes at a time [now] is the fine of
    the specification for the record the query returns: 0.0 when the pair has
    no open record; with one, and [now] past its due date, the days elapsed
    since the due date truncated toward zero, times [DAILY_FINE = 1.0]; 0.0
    when [now] is not past the due date.  The record is an open record of the
    pair, and none of the pair's open records has a later [borrow_date]. *)
Theorem calculate_fine_is_spec_fine
    (self : Library.t) (member_id isbn : string) (now : datetime) :
  let db := Library.database self in
  Library._calculate_fine self member_id isbn now now
  = spec_fine (Database.select_latest_open db member_id isbn) now
  /\ Library.DAILY_FINE = 1%float
  /\ (Database.select_latest_open db member_id isbn = None
      <-> forall r, r ∈ Database.borrowing_records db ->
                    Database.is_open_for member_id isbn r = false)
  /\ (forall r, Database.select_latest_open db member_id isbn = Some r ->
      r ∈ Database.borrowing_records db
      /\ Database.member_id r = member_id /\ Database.isbn r = isbn
      /\ Database.return_date r = None
      /\ forall r', r' ∈ Database.borrowing_records db ->
                    Database.is_open_for member_id isbn r' = true ->
                    Database.borrow_date r' <= Database.borrow_date r).
Proof.
  intros db. split; [|split; [reflexivity|split]].
  - unfold Library._calculate_fine, spec_fine. fold db.
    destruct (Database.select_latest_open db member_id isbn) as [r|]; [|reflexivity].
    destruct (Database.due_date r <? now) eqn:Hdue; [|reflexivity].
    apply Z.ltb_lt in Hdue. unfold timedelta_days, Library.DAILY_FINE.
    rewrite Z.quot_div_nonneg by (unfold US_PER_DAY; lia). reflexivity.
  - rewrite select_latest_open_None. split.
    + intros Hnil r Hr.
      destruct (Database.is_open_for member_id isbn r) eqn:E; [|reflexivity].
      assert (Hin : r ∈ open_records db member_id isbn)
        by (apply elem_of_open_records; auto).
      rewrite Hnil in Hin. inversion Hin.
    + intros Hnone.
      destruct (open_records db member_id isbn) as [|r l] eqn:E; [reflexivity|].
      assert (Hin : r ∈ open_records db member_id isbn) by (rewrite E; left).
      apply elem_of_open_records in Hin as [Hin Hopen].
      rewrite (Hnone r Hin) in Hopen. discriminate.
  - intros r Hsel. apply select_latest_open_Some in Hsel as [Hin Hmax].
    apply elem_of_open_records in Hin as [Hin Hopen].
    apply is_open_for_true in Hopen as (Hm & Hi & Hret).
    repeat split; try assumption.
    intros r' Hr' Hopen'. apply Hmax. apply elem_of_open_records. auto.
Qed.

(** ** What one call of [borrow_book] and [return_book] does *)

Lemma borrow_book_succeeds (self : Library.t) (member_id isbn : string)
    (member : Member.t) (book : Book.t) (now : datetime) (ts : Z) :
  Library.members self !! member_id = Some member ->
  Library.books self !! isbn = Some book ->
  Member.is_active member = true ->
  0 < Book.available_copies book ->
  Library.borrow_book self member_id isbn now ts true
  = ((true, BorrowedSuccessfully (Book.title book)
              (now + timedelta_of_days Library.BORROWING_PERIOD_DAYS)),
     Library.mk
       (snd (Database.record_borrowing (Library.database self) member_id isbn
               (now + timedelta_of_days Library.BORROWING_PERIOD_DAYS) ts true))
       (<[isbn := Book.set_available_copies book (Book.available_copies book - 1)]>
          (Library.books self))
       (<[member_id := Member.add_borrowed_book member isbn]>
          (Library.members self))).
Proof.
  intros Hm Hb Hact Havail. unfold Library.borrow_book.
  rewrite Hm, Hb, Hact. simpl. unfold Book.borrow_copy.
  apply Z.ltb_lt in Havail. rewrite Havail. reflexivity.
Qed.

Lemma borrow_book_write_fails (self : Library.t) (member_id isbn : string)
    (member : Member.t) (book : Book.t) (now : datetime) (ts : Z) :
  Library.members self !! member_id = Some member ->
  Library.books self !! isbn = Some book ->
  Member.is_active member = true ->
  0 < Book.available_copies book ->
  Library.borrow_book self member_id isbn now ts false
  = ((false, Text "Failed to record borrowing"),
     Library.mk
       (Library.database self)
       (<[isbn := snd (Book.return_copy
                         (Book.set_available_copies book
                            (Book.available_copies book - 1)))]>
          (Library.books self))
       (<[member_id := snd (Member.remove_borrowed_book
                              (Member.add_borrowed_book member isbn) isbn)]>
          (Library.members self))).
Proof.
  intros Hm Hb Hact Havail. unfold Library.borrow_book.
  rewrite Hm, Hb, Hact. simpl. unfold Book.borrow_copy.
  apply Z.ltb_lt in Havail. rewrite Havail. reflexivity.
Qed.

Lemma return_book_held (self : Library.t) (member_id isbn : string)
    (member : Member.t) (book : Book.t) (now_test now_diff : datetime)
    (ts : Z) (io_ok : bool) :
  Library.members self !! member_id = Some member ->
  Library.books self !! isbn = Some book ->
  isbn ∈ Member.borrowed_books member ->
  let fine := Library._calculate_fine self member_id isbn now_test now_diff in
  Library.return_book self member_id isbn now_test now_diff ts io_ok
  = ((if io_ok
      then (true, ReturnedSuccessfully (Book.title book)
                    (if (0 <? fine)%float then Some fine else None))
      else (false, Text "Failed to record return")),
     Library.mk
       (snd (Database.record_return (Library.database self) member_id isbn
               fine ts io_ok))
       (<[isbn := returned_book book]> (Library.books self))
       (<[member_id := returned_member member isbn fine]>
          (Library.members self))).
Proof.
  intros Hm Hb Hheld fine. unfold Library.return_book.
  rewrite Hm, Hb. unfold Member.remove_borrowed_book.
  destruct (decide (isbn ∈ Member.borrowed_books member)) as [_|Hn];
    [|contradiction].
  cbn [negb]. fold fine.
  assert (Htitle : Book.title (snd (Book.return_copy book)) = Book.title book).
  { unfold Book.return_copy.
    destruct (Book.available_copies book <? Book.total_copies book); reflexivity. }
  unfold returned_book, returned_member.
  destruct io_ok; simpl; rewrite ?Htitle; reflexivity.
Qed.

Lemma return_book_not_held (self : Library.t) (member_id isbn : string)
    (member : Member.t) (book : Book.t) (now_test now_diff : datetime)
    (ts : Z) (io_ok : bool) :
  Library.members self !! member_id = Some member ->
  Library.books self !! isbn = Some book ->
  isbn ∉ Member.borrowed_books member ->
  Library.return_book self member_id isbn now_test now_diff ts io_ok
  = ((false, Text "This book was not borrowed by this member"), self).
Proof.
  intros Hm Hb Hheld. unfold Library.return_book.
  rewrite Hm, Hb. unfold Member.remove_borrowed_book.
  destruct (decide (isbn ∈ Member.borrowed_books member)) as [Hin|_];
    [contradiction|reflexivity].
Qed.

(** C5. When the member holds the book and the database write of
    [return_book] fails, the call returns [(False, "Failed to record
    return")], the database is as before, and the in-memory changes stay:
    the book is what [return_copy] made of it (one more available copy when
    it was below [total_copies]), the isbn is off [borrowed_books], and a
    positive fine has been added to [total_fines]. *)
Theorem return_book_write_failure_keeps_mutations
    (self : Library.t) (member_id isbn : string) (member : Member.t)
    (book : Book.t) (now_test now_diff : datetime) (ts : Z) :
  Library.members self !! member_id = Some member ->
  Library.books self !! isbn = Some book ->
  isbn ∈ Member.borrowed_books member ->
  let fine := Library._calculate_fine self member_id isbn now_test now_diff in
  let '(res, self') :=
    Library.return_book self member_id isbn now_test now_diff ts false in
  res = (false, Text "Failed to record return")
  /\ Library.database self' = Library.database self
  /\ (exists book',
        Library.books self' !! isbn = Some book'
        /\ book' = snd (Book.return_copy book)
        /\ (Book.available_copies book < Book.total_copies book ->
            Book.available_copies book' = Book.available_copies book + 1))
  /\ (exists member',
        Library.members self' !! member_id = Some member'
        /\ Member.borrowed_books member'
           = remove_first isbn (Member.borrowed_books member)
        /\ Member.total_fines member'
           = if (0 <? fine)%float
             then (Member.total_fines member + fine)%float
             else Member.total_fines member).
Proof.
  intros Hm Hb Hheld fine.
  rewrite (return_book_held self member_id isbn member book
             now_test now_diff ts false Hm Hb Hheld).
  fold fine. simpl. split; [reflexivity|split; [reflexivity|split]].
  - exists (returned_book book). rewrite lookup_insert_eq.
    split; [reflexivity|split; [reflexivity|]].
    intros Hlt. unfold returned_book, Book.return_copy.
    apply Z.ltb_lt in Hlt. rewrite Hlt. reflexivity.
  - exists (returned_member member isbn fine). rewrite lookup_insert_eq.
    split; [reflexivity|]. unfold returned_member.
    destruct (0 <? fine)%float; split; reflexivity.
Qed.

Lemma return_book_write_failure_keeps_mutations_witness :
  Library.members demo_on_loan !! "M1" = Some (demo_member [demo_isbn] 0%float)
  /\ Library.books demo_on_loan !! demo_isbn = Some (demo_book 1)
  /\ Library._calculate_fine demo_on_loan "M1" demo_isbn (day 30) (day 30)
     = 16%float
  /\ let fine :=
       Library._calculate_fine demo_on_loan "M1" demo_isbn (day 30) (day 30) in
     let '(res, self') :=
       Library.return_book demo_on_loan "M1" demo_isbn (day 30) (day 30)
                           2592000 false in
     res = (false, Text "Failed to record return")
     /\ Library.database self' = Library.database demo_on_loan
     /\ (exists book',
           Library.books self' !! demo_isbn = Some book'
           /\ book' = snd (Book.return_copy (demo_book 1))
           /\ (Book.available_copies (demo_book 1)
               < Book.total_copies (demo_book 1) ->
               Book.available_copies book'
               = Book.available_copies (demo_book 1) + 1))
     /\ (exists member',
           Library.members self' !! "M1" = Some member'
           /\ Member.borrowed_books member'
              = remove_first demo_isbn
                  (Member.borrowed_books (demo_member [demo_isbn] 0%float))
           /\ Member.total_fines member'
              = if (0 <? fine)%float
                then (Member.total_fines (demo_member [demo_isbn] 0%float)
                      + fine)%float
                else Member.total_fines (demo_member [demo_isbn] 0%float)).
Proof.
  split; [vm_compute; reflexivity|].
  split; [vm_compute; reflexivity|].
  split; [vm_compute; reflexivity|].
  apply (return_book_write_failure_keeps_mutations demo_on_loan "M1" demo_isbn
           (demo_member [demo_isbn] 0%float) (demo_book 1)
           (day 30) (day 30) 2592000).
  - vm_compute; reflexivity.
  - vm_compute; reflexivity.
  - apply list_elem_of_here.
Defined.

Example demo_on_loan_state :
  Library.books demo_on_loan !! demo_isbn = Some (demo_book 1)
  /\ Library.members demo_on_loan !! "M1" = Some (demo_member [demo_isbn] 0%float)
  /\ Database.borrowing_records (Library.database demo_on_loan)
     = [demo_record 1 0 (day 14) None 0%float].
Proof. split; [|split]; vm_compute; reflexivity. Qed.

Example demo_on_loan_twice_state :
  Library.books demo_on_loan_twice !! demo_isbn = Some (demo_book 0)
  /\ Library.members demo_on_loan_twice !! "M1"
     = Some (demo_member [demo_isbn] 0%float)
  /\ Database.borrowing_records (Library.database demo_on_loan_twice)
     = [demo_record 1 0 (day 14) None 0%float;
        demo_record 2 86400 (day 15) None 0%float].
Proof. split; [|split]; vm_compute; reflexivity. Qed.

(** ** Loading the library from the database *)

Lemma load_member_borrowed_books (rows : list Database.member_row) :
  forall (ms : gmap string Member.t) (id : string) (m : Member.t),
  fold_left Library.load_member rows ms !! id = Some m ->
  ms !! id = Some m \/ Member.borrowed_books m = [].
Proof.
  induction rows as [|row rows IH]; intros ms id m Hm; simpl in Hm; [auto|].
  apply IH in Hm as [Hm|Hm]; [|auto].
  unfold Library.load_member in Hm.
  destruct (decide (Database.m_member_id row = id)) as [Heq|Hne].
  - rewrite Heq, lookup_insert_eq in Hm. inversion Hm; subst m. right. reflexivity.
  - rewrite lookup_insert_ne in Hm by assumption. auto.
Qed.

Lemma load_member_is_Some (rows : list Database.member_row) :
  forall (ms : gmap string Member.t) (id : string),
  id ∈ map Database.m_member_id rows \/ is_Some (ms !! id) ->
  is_Some (fold_left Library.load_member rows ms !! id).
Proof.
  induction rows as [|row rows IH]; intros ms id H; simpl in *.
  - destruct H as [H|H]; [inversion H|assumption].
  - apply IH. unfold Library.load_member.
    destruct (decide (Database.m_member_id row = id)) as [Heq|Hne].
    + right. rewrite Heq, lookup_insert_eq. eauto.
    + rewrite lookup_insert_ne by assumption.
      destruct H as [H|H]; [|auto].
      apply elem_of_cons in H as [H|H]; [congruence|auto].
Qed.

Lemma load_book_is_Some (rows : list Database.book_row) :
  forall (bs : gmap string Book.t) (isbn : string),
  isbn ∈ map Database.b_isbn rows \/ is_Some (bs !! isbn) ->
  is_Some (fold_left Library.load_book rows bs !! isbn).
Proof.
  induction rows as [|row rows IH]; intros bs isbn H; simpl in *.
  - destruct H as [H|H]; [inversion H|assumption].
  - apply IH. unfold Library.load_book.
    destruct (decide (Database.b_isbn row = isbn)) as [Heq|Hne].
    + right. rewrite Heq, lookup_insert_eq. eauto.
    + rewrite lookup_insert_ne by assumption.
      destruct H as [H|H]; [|auto].
      apply elem_of_cons in H as [H|H]; [congruence|auto].
Qed.

(** C9. Whatever the database holds, every member of a library just opened
    on it has an empty [borrowed_books]; so for a member and a book the
    database has rows for, [return_book] answers [(False, "This book was not
    borrowed by this member")] and changes nothing, open borrowing records
    or not. *)
Theorem restart_forgets_open_loans
    (db : Database.t) (member_id isbn : string)
    (now_test now_diff : datetime) (ts : Z) (io_ok : bool) :
  member_id ∈ map Database.m_member_id (Database.members db) ->
  isbn ∈ map Database.b_isbn (Database.books db) ->
  (forall (id : string) (m : Member.t),
     Library.members (Library.init db) !! id = Some m ->
     Member.borrowed_books m = [])
  /\ Library.return_book (Library.init db) member_id isbn now_test now_diff
                         ts io_ok
     = ((false, Text "This book was not borrowed by this member"),
        Library.init db).
Proof.
  intros Hmember Hbook.
  assert (Hempty : forall (id : string) (m : Member.t),
             Library.members (Library.init db) !! id = Some m ->
             Member.borrowed_books m = []).
  { intros id m Hm. simpl in Hm.
    apply load_member_borrowed_books in Hm as [Hm|Hm]; [|assumption].
    rewrite lookup_empty in Hm. discriminate. }
  split; [exact Hempty|].
  destruct (load_member_is_Some (Database.members db) ∅ member_id
              (or_introl Hmember)) as [m Hm].
  destruct (load_book_is_Some (Database.books db) ∅ isbn
              (or_introl Hbook)) as [b Hb].
  apply (return_book_not_held (Library.init db) member_id isbn m b);
    [exact Hm|exact Hb|].
  rewrite (Hempty member_id m Hm). apply not_elem_of_nil.
Qed.

Lemma restart_forgets_open_loans_witness :
  let db := Library.database demo_on_loan_twice in
  open_records db "M1" demo_isbn
  = [demo_record 1 0 (day 14) None 0%float;
     demo_record 2 86400 (day 15) None 0%float]
  /\ (forall (id : string) (m : Member.t),
        Library.members (Library.init db) !! id = Some m ->
        Member.borrowed_books m = [])
  /\ Library.return_book (Library.init db) "M1" demo_isbn (day 2) (day 2)
                         172800 true
     = ((false, Text "This book was not borrowed by this member"),
        Library.init db).
Proof.
  intros db. split; [vm_compute; reflexivity|].
  apply (restart_forgets_open_loans db "M1" demo_isbn (day 2) (day 2) 172800 true).
  - vm_compute. apply list_elem_of_here.
  - vm_compute. apply list_elem_of_here.
Defined.

(** ** Borrowing a title the member already holds *)

Lemma filter_eq_absent (x : string) (l : list string) :
  x ∉ l -> filter (fun y => y = x) l = [].
Proof.
  induction l as [|y l IH]; intros Hx; [reflexivity|].
  apply not_elem_of_cons in Hx as [Hne Hx].
  rewrite filter_cons_False by congruence. auto.
Qed.

Lemma NoDup_occurs_once (x : string) (l : list string) :
  NoDup l -> x ∈ l -> length (filter (fun y => y = x) l) = 1%nat.
Proof.
  induction l as [|y l IH]; intros Hnd Hx; [inversion Hx|].
  apply NoDup_cons in Hnd as [Hy Hnd].
  destruct (decide (y = x)) as [->|Hne].
  - rewrite filter_cons_True by reflexivity.
    rewrite (filter_eq_absent x l Hy). reflexivity.
  - rewrite filter_cons_False by assumption.
    apply elem_of_cons in Hx as [Hx|Hx]; [congruence|auto].
Qed.

(** C10. [borrow_book] does not look at [borrowed_books]: for an active
    member who already holds [isbn], with a copy available and a database
    write that succeeds, the call returns [True], takes one more copy off
    [available_copies], appends one more open borrowing record for the pair,
    and leaves the member as it was, so [borrowed_books] still lists [isbn]
    once when it listed nothing twice before. *)
Theorem borrow_book_again_same_pair
    (self : Library.t) (member_id isbn : string) (member : Member.t)
    (book : Book.t) (now : datetime) (ts : Z) :
  Library.members self !! member_id = Some member ->
  Library.books self !! isbn = Some book ->
  Member.is_active member = true ->
  isbn ∈ Member.borrowed_books member ->
  0 < Book.available_copies book ->
  let '(res, self') := Library.borrow_book self member_id isbn now ts true in
  let db := Library.database self in
  let db' := Library.database self' in
  fst res = true
  /\ (exists book',
        Library.books self' !! isbn = Some book'
        /\ Book.available_copies book' = Book.available_copies book - 1)
  /\ Database.borrowing_records db'
     = (Database.borrowing_records db
        ++ [Database.mk_borrowing_record
              (Database.sqlite_sequence db + 1) member_id isbn ts
              (now + timedelta_of_days 14) None 0%float])%list
  /\ length (open_records db' member_id isbn)
     = S (length (open_records db member_id isbn))
  /\ Library.members self' !! member_id = Some member
  /\ (NoDup (Member.borrowed_books member) ->
      length (filter (fun x => x = isbn) (Member.borrowed_books member)) = 1%nat).
Proof.
  intros Hm Hb Hact Hheld Havail.
  rewrite (borrow_book_succeeds self member_id isbn member book now ts
             Hm Hb Hact Havail).
  cbn [fst snd Library.database Library.books Library.members
       Database.record_borrowing Database.borrowing_records].
  split; [reflexivity|split; [|split; [reflexivity|split; [|split]]]].
  - eexists. rewrite lookup_insert_eq. split; reflexivity.
  - unfold open_records. cbn [Database.borrowing_records].
    rewrite filter_app, length_app.
    rewrite filter_cons_True.
    + simpl. lia.
    + apply is_open_for_true. auto.
  - rewrite lookup_insert_eq. f_equal. unfold Member.add_borrowed_book.
    destruct (decide (isbn ∈ Member.borrowed_books member)); [reflexivity|].
    contradiction.
  - intros Hnd. apply NoDup_occurs_once; assumption.
Qed.

Lemma borrow_book_again_same_pair_witness :
  let '(res, self') :=
    Library.borrow_book demo_on_loan "M1" demo_isbn (day 1) 86400 true in
  let db := Library.database demo_on_loan in
  let db' := Library.database self' in
  fst res = true
  /\ (exists book',
        Library.books self' !! demo_isbn = Some book'
        /\ Book.available_copies book' = Book.available_copies (demo_book 1) - 1)
  /\ Database.borrowing_records db'
     = (Database.borrowing_records db
        ++ [Database.mk_borrowing_record
              (Database.sqlite_sequence db + 1) "M1" demo_isbn 86400
              (day 1 + timedelta_of_days 14) None 0%float])%list
  /\ length (open_records db' "M1" demo_isbn)
     = S (length (open_records db "M1" demo_isbn))
  /\ Library.members self' !! "M1" = Some (demo_member [demo_isbn] 0%float)
  /\ (NoDup (Member.borrowed_books (demo_member [demo_isbn] 0%float)) ->
      length (filter (fun x => x = demo_isbn)
                (Member.borrowed_books (demo_member [demo_isbn] 0%float)))
      = 1%nat).
Proof.
  apply (borrow_book_again_same_pair demo_on_loan "M1" demo_isbn
           (demo_member [demo_isbn] 0%float) (demo_book 1) (day 1) 86400).
  - vm_compute; reflexivity.
  - vm_compute; reflexivity.
  - reflexivity.
  - apply list_elem_of_here.
  - simpl. lia.
Defined.

(** ** The rollback of [borrow_book] *)

Lemma remove_first_app_absent (x : string) (l : list string) :
  x ∉ l -> remove_first x (l ++ [x])%list = l.
Proof.
  induction l as [|y l IH]; intros Hx; simpl.
  - destruct (decide (x = x)); [reflexivity|congruence].
  - apply not_elem_of_cons in Hx as [Hne Hx].
    destruct (decide (x = y)); [congruence|]. rewrite IH by assumption.
    reflexivity.
Qed.

(** X1. Where the member does not hold the title and the book is within its
    bounds with a copy available, a [borrow_book] whose write fails returns
    [(False, "Failed to record borrowing")] and leaves the library exactly as
    it was: the rollback undoes both speculative changes. *)
Theorem borrow_book_rollback_restores_not_held
    (self : Library.t) (member_id isbn : string) (member : Member.t)
    (book : Book.t) (now : datetime) (ts : Z) :
  Library.members self !! member_id = Some member ->
  Library.books self !! isbn = Some book ->
  Member.is_active member = true ->
  isbn ∉ Member.borrowed_books member ->
  0 < Book.available_copies book <= Book.total_copies book ->
  Library.borrow_book self member_id isbn now ts false
  = ((false, Text "Failed to record borrowing"), self).
Proof.
  intros Hm Hb Hact Hnot [Hpos Hle].
  rewrite (borrow_book_write_fails self member_id isbn member book now ts
             Hm Hb Hact Hpos).
  f_equal. destruct self as [db books members]. simpl in *. f_equal.
  - apply insert_id. rewrite Hb. f_equal.
    unfold Book.return_copy. simpl.
    replace (Book.available_copies book - 1 <? Book.total_copies book)
      with true by (symmetry; apply Z.ltb_lt; lia).
    destruct book; unfold Book.set_available_copies; simpl. f_equal. lia.
  - apply insert_id. rewrite Hm. f_equal.
    unfold Member.add_borrowed_book.
    destruct (decide (isbn ∈ Member.borrowed_books member)); [contradiction|].
    unfold Member.remove_borrowed_book. simpl.
    destruct (decide (isbn ∈ (Member.borrowed_books member ++ [isbn])%list))
      as [_|Hn].
    + simpl. rewrite remove_first_app_absent by assumption.
      destruct member; reflexivity.
    + exfalso. apply Hn. apply elem_of_app. right. apply list_elem_of_here.
Qed.

Lemma borrow_book_rollback_restores_not_held_witness :
  Library.borrow_book demo_library "M1" demo_isbn (day 0) 0 false
  = ((false, Text "Failed to record borrowing"), demo_library).
Proof.
  apply (borrow_book_rollback_restores_not_held demo_library "M1" demo_isbn
           (demo_member [] 0%float) (demo_book 2) (day 0) 0).
  - vm_compute; reflexivity.
  - vm_compute; reflexivity.
  - reflexivity.
  - apply not_elem_of_nil.
  - simpl. lia.
Defined.

(** C1, at the input where it fails.  "M1" already holds the title, one of
    the two copies is available, and the write of the second borrowing
    fails: the call answers [(False, "Failed to record borrowing")] and the
    available copies are back at 1, but the rollback has taken the title off
    [borrowed_books], which held it before the call, while the store still
    has the open record of the first loan. *)
Theorem borrow_book_rollback_drops_held_isbn :
  Library.members demo_on_loan !! "M1" = Some (demo_member [demo_isbn] 0%float)
  /\ Library.books demo_on_loan !! demo_isbn = Some (demo_book 1)
  /\ let '(res, self') :=
       Library.borrow_book demo_on_loan "M1" demo_isbn (day 1) 86400 false in
     res = (false, Text "Failed to record borrowing")
     /\ Library.books self' !! demo_isbn = Some (demo_book 1)
     /\ Library.members self' !! "M1" = Some (demo_member [] 0%float)
     /\ open_records (Library.database self') "M1" demo_isbn
        = [demo_record 1 0 (day 14) None 0%float].
Proof.
  split; [vm_compute; reflexivity|].
  split; [vm_compute; reflexivity|].
  vm_compute. split; [reflexivity|]. split; [reflexivity|].
  split; reflexivity.
Qed.

(** ** Which records a return closes *)

Lemma return_book_true_inv (self self' : Library.t) (member_id isbn : string)
    (now_test now_diff : datetime) (ts : Z) (io_ok : bool) (msg : message) :
  Library.return_book self member_id isbn now_test now_diff ts io_ok
  = ((true, msg), self') ->
  exists member book,
    Library.members self !! member_id = Some member
    /\ Library.books self !! isbn = Some book
    /\ isbn ∈ Member.borrowed_books member
    /\ io_ok = true.
Proof.
  intros H.
  destruct (Library.members self !! member_id) as [member|] eqn:Hm;
    [|unfold Library.return_book in H; rewrite Hm in H; discriminate].
  destruct (Library.books self !! isbn) as [book|] eqn:Hb;
    [|unfold Library.return_book in H; rewrite Hm, Hb in H; discriminate].
  destruct (decide (isbn ∈ Member.borrowed_books member)) as [Hheld|Hnot].
  - exists member, book. repeat split; try assumption.
    rewrite (return_book_held self member_id isbn member book now_test
               now_diff ts io_ok Hm Hb Hheld) in H.
    destruct io_ok; [reflexivity|discriminate].
  - rewrite (return_book_not_held self member_id isbn member book now_test
               now_diff ts io_ok Hm Hb Hnot) in H. discriminate.
Qed.

(** C6, amended.  A successful [return_book] sets [return_date] and
    [fine_paid], and nothing else, on every open borrowing record of the
    pair, and leaves every other record as it was; when the pair has a single
    open record, that record is the most recent open one and the only record
    that changes. *)
Theorem return_book_closes_open_records_of_pair
    (self self' : Library.t) (member_id isbn : string)
    (now_test now_diff : datetime) (ts : Z) (msg : message) :
  Library.return_book self member_id isbn now_test now_diff ts true
  = ((true, msg), self') ->
  let fine := Library._calculate_fine self member_id isbn now_test now_diff in
  let old := Database.borrowing_records (Library.database self) in
  let new := Database.borrowing_records (Library.database self') in
  length new = length old
  /\ (forall (k : nat) (r : Database.borrowing_record),
        old !! k = Some r ->
        new !! k
        = Some (if Database.is_open_for member_id isbn r
                then Database.mk_borrowing_record
                       (Database.record_id r) (Database.member_id r)
                       (Database.isbn r) (Database.borrow_date r)
                       (Database.due_date r) (Some ts) fine
                else r))
  /\ (forall r0 : Database.borrowing_record,
        open_records (Library.database self) member_id isbn = [r0] ->
        Database.select_latest_open (Library.database self) member_id isbn
        = Some r0
        /\ forall (k : nat) (r : Database.borrowing_record),
             old !! k = Some r -> r <> r0 -> new !! k = Some r).
Proof.
  intros H fine old new.
  destruct (return_book_true_inv _ _ _ _ _ _ _ _ _ H)
    as (member & book & Hm & Hb & Hheld & _).
  rewrite (return_book_held self member_id isbn member book now_test
             now_diff ts true Hm Hb Hheld) in H.
  inversion H as [[Hmsg Hself]]. clear H Hmsg.
  assert (Hnew : new = map (fun r => if Database.is_open_for member_id isbn r
                                     then Database.set_returned ts fine r
                                     else r) old).
  { subst new self'. reflexivity. }
  clear Hself.
  assert (Hslot : forall (k : nat) (r : Database.borrowing_record),
             old !! k = Some r ->
             new !! k = Some (if Database.is_open_for member_id isbn r
                              then Database.set_returned ts fine r else r)).
  { intros k r Hk. rewrite Hnew, list_lookup_fmap, Hk. reflexivity. }
  split; [rewrite Hnew; apply length_map|].
  split; [exact Hslot|].
  intros r0 Hone. split.
  - unfold Database.select_latest_open. fold (open_records (Library.database self) member_id isbn).
    rewrite Hone. reflexivity.
  - intros k r Hk Hne. rewrite (Hslot k r Hk).
    destruct (Database.is_open_for member_id isbn r) eqn:Hopen; [|reflexivity].
    exfalso. apply Hne.
    assert (Hin : r ∈ open_records (Library.database self) member_id isbn).
    { apply elem_of_open_records. split; [|assumption].
      apply list_elem_of_lookup. exists k. exact Hk. }
    rewrite Hone in Hin. apply list_elem_of_singleton in Hin. exact Hin.
Qed.

Lemma return_book_closes_open_records_of_pair_witness :
  let self := demo_on_loan_twice in
  let self' :=
    snd (Library.return_book self "M1" demo_isbn (day 2) (day 2) 172800 true) in
  let fine := Library._calculate_fine self "M1" demo_isbn (day 2) (day 2) in
  let old := Database.borrowing_records (Library.database self) in
  let new := Database.borrowing_records (Library.database self') in
  length new = length old
  /\ (forall (k : nat) (r : Database.borrowing_record),
        old !! k = Some r ->
        new !! k
        = Some (if Database.is_open_for "M1" demo_isbn r
                then Database.mk_borrowing_record
                       (Database.record_id r) (Database.member_id r)
                       (Database.isbn r) (Database.borrow_date r)
                       (Database.due_date r) (Some 172800) fine
                else r))
  /\ (forall r0 : Database.borrowing_record,
        open_records (Library.database self) "M1" demo_isbn = [r0] ->
        Database.select_latest_open (Library.database self) "M1" demo_isbn
        = Some r0
        /\ forall (k : nat) (r : Database.borrowing_record),
             old !! k = Some r -> r <> r0 -> new !! k = Some r).
Proof.
  intros self self'.
  apply (return_book_closes_open_records_of_pair self self' "M1" demo_isbn
           (day 2) (day 2) 172800 (ReturnedSuccessfully "X" None)).
  vm_compute. reflexivity.
Defined.

(** C6 as worded fails: with the two open records of [demo_on_loan_twice],
    the return also closes the older one, which is not the most recent. *)
Lemma return_book_closes_older_open_record_too :
  ~ return_touches_only_latest_open.
Proof.
  intros Hclaim.
  assert (Hret :
    Library.return_book demo_on_loan_twice "M1" demo_isbn (day 2) (day 2)
                        172800 true
    = ((true, ReturnedSuccessfully "X" None),
       snd (Library.return_book demo_on_loan_twice "M1" demo_isbn
              (day 2) (day 2) 172800 true)))
    by (vm_compute; reflexivity).
  specialize (Hclaim _ _ _ _ _ _ _ _ Hret 0%nat
                (demo_record 1 0 (day 14) None 0%float)).
  assert (Hold :
    Database.borrowing_records (Library.database demo_on_loan_twice) !! 0%nat
    = Some (demo_record 1 0 (day 14) None 0%float))
    by (vm_compute; reflexivity).
  assert (Hlatest :
    Database.select_latest_open (Library.database demo_on_loan_twice)
                                "M1" demo_isbn
    <> Some (demo_record 1 0 (day 14) None 0%float))
    by (vm_compute; discriminate).
  specialize (Hclaim Hold Hlatest).
  vm_compute in Hclaim. discriminate.
Qed.

(** ** Borrowing and returning at once *)

Lemma open_records_after_borrowing (db : Database.t) (member_id isbn : string)
    (due_date : datetime) (ts : Z) :
  open_records
    (snd (Database.record_borrowing db member_id isbn due_date ts true))
    member_id isbn
  = (open_records db member_id isbn
     ++ [Database.mk_borrowing_record (Database.sqlite_sequence db + 1)
           member_id isbn ts due_date None 0%float])%list.
Proof.
  unfold open_records. simpl. rewrite filter_app. f_equal.
  rewrite filter_cons_True by (apply is_open_for_true; auto). reflexivity.
Qed.

Lemma calculate_fine_not_due (self : Library.t) (member_id isbn : string)
    (now_test now_diff : datetime) :
  (forall r, Database.select_latest_open (Library.database self) member_id isbn
             = Some r -> now_test <= Database.due_date r) ->
  Library._calculate_fine self member_id isbn now_test now_diff = 0%float.
Proof.
  intros H. unfold Library._calculate_fine.
  destruct (Database.select_latest_open (Library.database self) member_id isbn)
    as [r|]; [|reflexivity].
  specialize (H r eq_refl).
  replace (Database.due_date r <? now_test) with false
    by (symmetry; apply Z.ltb_ge; lia).
  reflexivity.
Qed.

(** C7. An active member who does not hold the title borrows a book that has
    a copy available (and is within its bounds), the write succeeds, and the
    member returns it at the same instant: the fine is 0.0, the member is
    back to the state before the loan (so [total_fines] is unchanged) and so
    is the book (so [available_copies] has its value from before the loan).
    The open records the store may already have for the pair are older than
    the new one or not yet overdue, as they are when clocks run forward. *)
Theorem borrow_then_return_at_once
    (self : Library.t) (member_id isbn : string) (member : Member.t)
    (book : Book.t) (now : datetime) (ts ts' : Z) (io_ok : bool) :
  Library.members self !! member_id = Some member ->
  Library.books self !! isbn = Some book ->
  Member.is_active member = true ->
  isbn ∉ Member.borrowed_books member ->
  0 < Book.available_copies book <= Book.total_copies book ->
  open_records_older_or_not_due (Library.database self) member_id isbn now ts ->
  let '(res1, self1) := Library.borrow_book self member_id isbn now ts true in
  let fine := Library._calculate_fine self1 member_id isbn now now in
  let '(res2, self2) :=
    Library.return_book self1 member_id isbn now now ts' io_ok in
  fst res1 = true
  /\ fine = 0%float
  /\ res2 = (if io_ok
             then (true, ReturnedSuccessfully (Book.title book) None)
             else (false, Text "Failed to record return"))
  /\ Library.members self2 !! member_id = Some member
  /\ Library.books self2 !! isbn = Some book.
Proof.
  intros Hm Hb Hact Hnot [Hpos Hle] Hstore.
  rewrite (borrow_book_succeeds self member_id isbn member book now ts
             Hm Hb Hact Hpos).
  set (due := now + timedelta_of_days Library.BORROWING_PERIOD_DAYS).
  set (db1 := snd (Database.record_borrowing (Library.database self)
                     member_id isbn due ts true)).
  set (book1 := Book.set_available_copies book (Book.available_copies book - 1)).
  set (member1 := Member.add_borrowed_book member isbn).
  set (self1 := Library.mk db1 (<[isbn:=book1]> (Library.books self))
                           (<[member_id:=member1]> (Library.members self))).
  assert (Hmember1 : member1
            = Member.set_borrowed_books member
                (Member.borrowed_books member ++ [isbn])%list).
  { subst member1. unfold Member.add_borrowed_book.
    destruct (decide (isbn ∈ Member.borrowed_books member));
      [contradiction|reflexivity]. }
  assert (Hfine : Library._calculate_fine self1 member_id isbn now now = 0%float).
  { apply calculate_fine_not_due. intros r Hsel. simpl in Hsel.
    apply select_latest_open_Some in Hsel as [Hin Hmax].
    assert (Hnew : Database.mk_borrowing_record
                     (Database.sqlite_sequence (Library.database self) + 1)
                     member_id isbn ts due None 0%float
                   ∈ open_records db1 member_id isbn).
    { subst db1. rewrite open_records_after_borrowing.
      apply elem_of_app. right. apply list_elem_of_here. }
    apply Hmax in Hnew. simpl in Hnew.
    subst db1. rewrite open_records_after_borrowing in Hin.
    apply elem_of_app in Hin as [Hin|Hin].
    - destruct (Hstore r Hin) as [Hold|Hdue]; [lia|exact Hdue].
    - apply list_elem_of_singleton in Hin. subst r. simpl. subst due.
      unfold timedelta_of_days, Library.BORROWING_PERIOD_DAYS, US_PER_DAY. lia. }
  assert (Hm1 : Library.members self1 !! member_id = Some member1)
    by (simpl; apply lookup_insert_eq).
  assert (Hb1 : Library.books self1 !! isbn = Some book1)
    by (simpl; apply lookup_insert_eq).
  assert (Hheld1 : isbn ∈ Member.borrowed_books member1).
  { rewrite Hmember1. simpl. apply elem_of_app. right. apply list_elem_of_here. }
  rewrite (return_book_held self1 member_id isbn member1 book1 now now ts'
             io_ok Hm1 Hb1 Hheld1).
  rewrite Hfine.
  assert (Hbook : returned_book book1 = book).
  { unfold returned_book, Book.return_copy. subst book1. simpl.
    replace (Book.available_copies book - 1 <? Book.total_copies book)
      with true by (symmetry; apply Z.ltb_lt; lia).
    destruct book; unfold Book.set_available_copies; simpl. f_equal. lia. }
  assert (Hmem : returned_member member1 isbn 0%float = member).
  { unfold returned_member. rewrite Hmember1. simpl.
    rewrite remove_first_app_absent by assumption.
    destruct member; reflexivity. }
  rewrite Hbook, Hmem. simpl.
  split; [reflexivity|]. split; [reflexivity|].
  split; [destruct io_ok; reflexivity|].
  split; apply lookup_insert_eq.
Qed.

Lemma borrow_then_return_at_once_witness :
  let self := Library.init (Library.database demo_on_loan) in
  open_records (Library.database self) "M1" demo_isbn
  = [demo_record 1 0 (day 14) None 0%float]
  /\ let '(res1, self1) :=
       Library.borrow_book self "M1" demo_isbn (day 20) 1728000 true in
     let fine := Library._calculate_fine self1 "M1" demo_isbn (day 20) (day 20) in
     let '(res2, self2) :=
       Library.return_book self1 "M1" demo_isbn (day 20) (day 20) 1728000 true in
     fst res1 = true
     /\ fine = 0%float
     /\ res2 = (if true
                then (true, ReturnedSuccessfully (Book.title (demo_book 2)) None)
                else (false, Text "Failed to record return"))
     /\ Library.members self2 !! "M1" = Some (demo_member [] 0%float)
     /\ Library.books self2 !! demo_isbn = Some (demo_book 2).
Proof.
  intros self.
  assert (Hopen : open_records (Library.database self) "M1" demo_isbn
                  = [demo_record 1 0 (day 14) None 0%float])
    by (vm_compute; reflexivity).
  split; [exact Hopen|].
  apply (borrow_then_return_at_once self "M1" demo_isbn
           (demo_member [] 0%float) (demo_book 2) (day 20) 1728000 1728000 true).
  - vm_compute; reflexivity.
  - vm_compute; reflexivity.
  - reflexivity.
  - apply not_elem_of_nil.
  - simpl. lia.
  - intros r Hr. rewrite Hopen in Hr. apply list_elem_of_singleton in Hr.
    subst r. left. simpl. lia.
Defined.

(** ** One open record per pair *)

Lemma borrow_book_not_held_effect (self : Library.t) (member_id isbn : string)
    (now : datetime) (ts : Z) (io_ok : bool) :
  ~ Trace.holds self member_id isbn ->
  let self' := snd (Library.borrow_book self member_id isbn now ts io_ok) in
  (Library.database self' = Library.database self
   /\ Library.members self' = Library.members self)
  \/ (exists member,
        Library.members self !! member_id = Some member
        /\ (isbn ∉ Member.borrowed_books member)
        /\ Library.database self'
           = snd (Database.record_borrowing (Library.database self) member_id
                    isbn (now + timedelta_of_days Library.BORROWING_PERIOD_DAYS)
                    ts true)
        /\ Library.members self'
           = <[member_id := Member.set_borrowed_books member
                              (Member.borrowed_books member ++ [isbn])%list]>
               (Library.members self)).
Proof.
  intros Hnot. unfold Library.borrow_book.
  destruct (Library.members self !! member_id) as [member|] eqn:Hm; [|left; auto].
  destruct (Library.books self !! isbn) as [book|] eqn:Hb; [|left; auto].
  assert (Habsent : isbn ∉ Member.borrowed_books member).
  { intros Hin. apply Hnot. exists member. auto. }
  destruct (Member.is_active member); simpl; [|left; auto].
  unfold Book.borrow_copy.
  destruct (0 <? Book.available_copies book); simpl; [|left; auto].
  unfold Member.add_borrowed_book.
  destruct (decide (isbn ∈ Member.borrowed_books member)); [contradiction|].
  destruct io_ok; simpl.
  - right. exists member. auto.
  - left. split; [reflexivity|]. apply insert_id. rewrite Hm. f_equal.
    unfold Member.remove_borrowed_book. simpl.
    destruct (decide (isbn ∈ (Member.borrowed_books member ++ [isbn])%list))
      as [_|Hn].
    + simpl. rewrite remove_first_app_absent by assumption.
      destruct member; reflexivity.
    + exfalso. apply Hn. apply elem_of_app. right. apply list_elem_of_here.
Qed.

Lemma return_book_effect (self : Library.t) (member_id isbn : string)
    (now_test now_diff : datetime) (ts : Z) :
  let self' :=
    snd (Library.return_book self member_id isbn now_test now_diff ts true) in
  self' = self
  \/ (exists member fine,
        Library.members self !! member_id = Some member
        /\ Library.database self'
           = snd (Database.record_return (Library.database self) member_id
                    isbn fine ts true)
        /\ Library.members self'
           = <[member_id := returned_member member isbn fine]>
               (Library.members self)).
Proof.
  destruct (Library.members self !! member_id) as [member|] eqn:Hm;
    [|left; unfold Library.return_book; rewrite Hm; reflexivity].
  destruct (Library.books self !! isbn) as [book|] eqn:Hb;
    [|left; unfold Library.return_book; rewrite Hm, Hb; reflexivity].
  destruct (decide (isbn ∈ Member.borrowed_books member)) as [Hheld|Hnot].
  - right. exists member. eexists.
    rewrite (return_book_held self member_id isbn member book now_test
               now_diff ts true Hm Hb Hheld).
    simpl. auto.
  - left.
    rewrite (return_book_not_held self member_id isbn member book now_test
               now_diff ts true Hm Hb Hnot).
    reflexivity.
Qed.

Lemma elem_of_remove_first_ne (x y : string) (l : list string) :
  y ∈ l -> y <> x -> y ∈ remove_first x l.
Proof.
  induction l as [|z l IH]; intros Hy Hne; simpl; [inversion Hy|].
  apply elem_of_cons in Hy as [->|Hy].
  - destruct (decide (x = z)); [congruence|left].
  - destruct (decide (x = z)); [assumption|right; auto].
Qed.

Lemma returned_member_borrowed_books (member : Member.t) (isbn : string)
    (fine : float) :
  Member.borrowed_books (returned_member member isbn fine)
  = remove_first isbn (Member.borrowed_books member).
Proof.
  unfold returned_member. destruct (0 <? fine)%float; reflexivity.
Qed.

Lemma open_records_after_borrowing_other (db : Database.t)
    (member_id isbn member_id' isbn' : string) (due_date : datetime) (ts : Z) :
  ~ (member_id' = member_id /\ isbn' = isbn) ->
  open_records
    (snd (Database.record_borrowing db member_id isbn due_date ts true))
    member_id' isbn'
  = open_records db member_id' isbn'.
Proof.
  intros Hne. unfold open_records. simpl. rewrite filter_app.
  rewrite filter_cons_False.
  - rewrite filter_nil. apply app_nil_r.
  - rewrite is_open_for_true. simpl. intros (-> & -> & _). apply Hne. auto.
Qed.

Lemma filter_open_after_return (l : list Database.borrowing_record)
    (member_id isbn member_id' isbn' : string) (fine : float) (ts : Z) :
  filter (fun r => Database.is_open_for member_id' isbn' r = true)
         (map (fun r => if Database.is_open_for member_id isbn r
                        then Database.set_returned ts fine r
                        else r) l)
  = if decide (member_id' = member_id /\ isbn' = isbn)
    then []
    else filter (fun r => Database.is_open_for member_id' isbn' r = true) l.
Proof.
  induction l as [|r l IH]; cbn [map].
  - rewrite filter_nil. destruct (decide _); reflexivity.
  - destruct (Database.is_open_for member_id isbn r) eqn:Hopen.
    + rewrite filter_cons_False
        by (rewrite is_open_for_true; simpl; intros (_ & _ & ?); discriminate).
      rewrite IH. destruct (decide _) as [_|Hne]; [reflexivity|].
      rewrite filter_cons_False; [reflexivity|].
      apply is_open_for_true in Hopen as (Hm & Hi & _).
      rewrite is_open_for_true. intros (Hm' & Hi' & _). apply Hne.
      split; congruence.
    + destruct (decide _) as [[Hm Hi]|Hne].
      * rewrite filter_cons_False by (rewrite Hm, Hi, Hopen; discriminate).
        exact IH.
      * destruct (Database.is_open_for member_id' isbn' r) eqn:Hopen'.
        -- rewrite !filter_cons_True by assumption. rewrite IH. reflexivity.
        -- rewrite !filter_cons_False by (rewrite Hopen'; discriminate).
           exact IH.
Qed.

Lemma open_records_after_return (db : Database.t)
    (member_id isbn member_id' isbn' : string) (fine : float) (ts : Z) :
  open_records (snd (Database.record_return db member_id isbn fine ts true))
               member_id' isbn'
  = if decide (member_id' = member_id /\ isbn' = isbn)
    then []
    else open_records db member_id' isbn'.
Proof. apply filter_open_after_return. Qed.

Lemma holds_insert_other (self self' : Library.t) (member_id id isbn : string)
    (m' : Member.t) :
  Library.members self' = <[member_id := m']> (Library.members self) ->
  id <> member_id ->
  Trace.holds self id isbn -> Trace.holds self' id isbn.
Proof.
  intros Hms Hne (m & Hm & Hin). exists m. split; [|assumption].
  rewrite Hms, lookup_insert_ne by congruence. assumption.
Qed.

Lemma run_call_keeps_one_open (self : Library.t) (c : Trace.call) :
  Trace.admissible self c ->
  open_implies_held self /\ at_most_one_open (Library.database self) ->
  open_implies_held (Trace.run_call self c)
  /\ at_most_one_open (Library.database (Trace.run_call self c)).
Proof.
  intros Hadm [Hheld Hone].
  destruct c as [isbn title author publisher year copies io_ok
                |member_id name email phone address io_ok
                |member_id isbn now ts io_ok
                |member_id isbn now_test now_diff ts io_ok]; simpl in *.
  - (* add_book: the borrowing records and the members stay *)
    unfold Library.add_book, Database.add_book.
    destruct (decide (is_Some (Library.books self !! isbn))); [auto|].
    destruct io_ok; simpl; [|auto].
    destruct (decide (isbn ∈ map Database.b_isbn
                                 (Database.books (Library.database self))));
      split; auto.
  - (* add_member: a new member holds nothing, the others stay *)
    unfold Library.add_member, Database.add_member.
    destruct (decide (is_Some (Library.members self !! member_id)))
      as [|Hfresh]; [auto|].
    destruct io_ok; simpl; [|auto].
    destruct (decide (member_id ∈ map Database.m_member_id
                                      (Database.members (Library.database self))));
      [split; auto|].
    split; [|exact Hone].
    intros id isbn r Hr.
    destruct (Hheld id isbn r Hr) as (m & Hm & Hin).
    exists m. split; [|assumption]. simpl.
    rewrite lookup_insert_ne; [assumption|].
    intros ->. apply Hfresh. eauto.
  - (* borrow_book for a pair the member does not hold *)
    destruct (borrow_book_not_held_effect self member_id isbn now ts io_ok Hadm)
      as [[Hdb Hms]|(member & Hm & Habsent & Hdb & Hms)].
    + split.
      * intros id i r Hr. rewrite Hdb in Hr.
        destruct (Hheld id i r Hr) as (m & Hlook & Hin).
        exists m. rewrite Hms. auto.
      * rewrite Hdb. exact Hone.
    + assert (Hnone : open_records (Library.database self) member_id isbn = []).
      { destruct (open_records (Library.database self) member_id isbn)
          as [|r l] eqn:E; [reflexivity|].
        exfalso. apply Hadm. apply (Hheld member_id isbn r).
        rewrite E. left. }
      split.
      * intros id i r Hr. rewrite Hdb in Hr.
        destruct (decide (id = member_id /\ i = isbn)) as [[-> ->]|Hne].
        -- eexists. rewrite Hms, lookup_insert_eq. split; [reflexivity|].
           simpl. apply elem_of_app. right. apply list_elem_of_here.
        -- rewrite open_records_after_borrowing_other in Hr by assumption.
           pose proof (Hheld id i r Hr) as Hold.
           destruct (decide (id = member_id)) as [->|Hid].
           ++ destruct Hold as (m & Hlook & Hin).
              rewrite Hm in Hlook. inversion Hlook; subst m.
              eexists. rewrite Hms, lookup_insert_eq. split; [reflexivity|].
              simpl. apply elem_of_app. left. assumption.
           ++ eapply holds_insert_other; eassumption.
      * intros id i. rewrite Hdb.
        destruct (decide (id = member_id /\ i = isbn)) as [[-> ->]|Hne].
        -- rewrite open_records_after_borrowing, Hnone. simpl. lia.
        -- rewrite open_records_after_borrowing_other by assumption. apply Hone.
  - (* return_book whose write succeeds *)
    subst io_ok.
    destruct (return_book_effect self member_id isbn now_test now_diff ts)
      as [Hsame|(member & fine & Hm & Hdb & Hms)].
    + rewrite Hsame. auto.
    + split.
      * intros id i r Hr. rewrite Hdb, open_records_after_return in Hr.
        destruct (decide (id = member_id /\ i = isbn)) as [_|Hne];
          [inversion Hr|].
        pose proof (Hheld id i r Hr) as Hold.
        destruct (decide (id = member_id)) as [->|Hid].
        -- destruct Hold as (m & Hlook & Hin).
           rewrite Hm in Hlook. inversion Hlook; subst m.
           eexists. rewrite Hms, lookup_insert_eq. split; [reflexivity|].
           rewrite returned_member_borrowed_books.
           apply elem_of_remove_first_ne; [assumption|].
           intros ->. apply Hne. auto.
        -- eapply holds_insert_other; eassumption.
      * intros id i. rewrite Hdb, open_records_after_return.
        destruct (decide (id = member_id /\ i = isbn)); [simpl; lia|apply Hone].
Qed.

Lemma run_calls_keep_one_open (cs : list Trace.call) : forall self : Library.t,
  Trace.disciplined self cs ->
  open_implies_held self /\ at_most_one_open (Library.database self) ->
  open_implies_held (Trace.run_calls self cs)
  /\ at_most_one_open (Library.database (Trace.run_calls self cs)).
Proof.
  induction cs as [|c cs IH]; intros self Hd Hinv; [exact Hinv|].
  destruct Hd as [Hadm Hd]. apply (IH (Trace.run_call self c) Hd).
  apply run_call_keeps_one_open; assumption.
Qed.

(** C2, amended.  In every state reached from a library opened on a new
    database by [add_book], [add_member], [borrow_book] and [return_book]
    calls in which [borrow_book] is only called for a title the member does
    not hold and no write of [return_book] fails, at most one borrowing
    record of each (member, isbn) pair has [return_date] NULL. *)
Theorem disciplined_calls_keep_one_open_record (cs : list Trace.call) :
  Trace.disciplined Trace.fresh cs ->
  at_most_one_open (Library.database (Trace.run_calls Trace.fresh cs)).
Proof.
  intros Hd. apply (run_calls_keep_one_open cs Trace.fresh Hd).
  split.
  - intros id i r Hr. inversion Hr.
  - intros id i. simpl. lia.
Qed.

Lemma disciplined_calls_keep_one_open_record_witness :
  Trace.disciplined Trace.fresh demo_calls_disciplined
  /\ at_most_one_open
       (Library.database (Trace.run_calls Trace.fresh demo_calls_disciplined)).
Proof.
  assert (Hd : Trace.disciplined Trace.fresh demo_calls_disciplined).
  { unfold demo_calls_disciplined.
    cbn [Trace.disciplined Trace.admissible].
    repeat match goal with |- _ /\ _ => split end; try exact I; try reflexivity.
    - intros (m & Hm & Hin). vm_compute in Hm. inversion Hm; subst m.
      inversion Hin.
    - intros (m & Hm & Hin). vm_compute in Hm. inversion Hm; subst m.
      inversion Hin. }
  split; [exact Hd|].
  apply (disciplined_calls_keep_one_open_record demo_calls_disciplined Hd).
Defined.

(** C2 as worded fails: two [borrow_book] calls for the same pair, with two
    copies on the shelf, leave two open records for it. *)
Lemma borrow_twice_leaves_two_open_records :
  ~ (forall cs : list Trace.call,
       at_most_one_open (Library.database (Trace.run_calls Trace.fresh cs))).
Proof.
  intros Hclaim.
  specialize (Hclaim demo_calls_borrow_twice "M1" demo_isbn).
  assert (Htwo :
    open_records
      (Library.database (Trace.run_calls Trace.fresh demo_calls_borrow_twice))
      "M1" demo_isbn
    = [demo_record 1 0 (day 14) None 0%float;
       demo_record 2 86400 (day 15) None 0%float])
    by (vm_compute; reflexivity).
  rewrite Htwo in Hclaim. simpl in Hclaim. lia.
Qed.

(** ** Further properties of the code *)

Lemma NoDup_remove_first (x : string) (l : list string) :
  NoDup l -> NoDup (remove_first x l).
Proof.
  induction l as [|y l IH]; intros Hnd; simpl; [constructor|].
  apply NoDup_cons in Hnd as [Hy Hnd].
  destruct (decide (x = y)); [assumption|].
  apply NoDup_cons. split; [|auto].
  intros Hin. apply Hy. clear -Hin.
  induction l as [|z l IH]; simpl in Hin; [inversion Hin|].
  destruct (decide (x = z)); [right; assumption|].
  apply elem_of_cons in Hin as [->|Hin]; [left|right; auto].
Qed.

Lemma NoDup_add_borrowed_book (m : Member.t) (isbn : string) :
  NoDup (Member.borrowed_books m) ->
  NoDup (Member.borrowed_books (Member.add_borrowed_book m isbn)).
Proof.
  intros Hnd. unfold Member.add_borrowed_book.
  destruct (decide (isbn ∈ Member.borrowed_books m)) as [|Hnot]; [assumption|].
  simpl. apply NoDup_app. split; [assumption|]. split.
  - intros x Hx Hx'. apply list_elem_of_singleton in Hx'. subst x. contradiction.
  - apply NoDup_singleton.
Qed.

Lemma NoDup_remove_borrowed_book (m : Member.t) (isbn : string) :
  NoDup (Member.borrowed_books m) ->
  NoDup (Member.borrowed_books (snd (Member.remove_borrowed_book m isbn))).
Proof.
  intros Hnd. unfold Member.remove_borrowed_book.
  destruct (decide (isbn ∈ Member.borrowed_books m)); simpl; [|assumption].
  apply NoDup_remove_first. assumption.
Qed.

Lemma borrowed_books_NoDup_insert (members : gmap string Member.t)
    (id : string) (m : Member.t) :
  borrowed_books_NoDup members -> NoDup (Member.borrowed_books m) ->
  borrowed_books_NoDup (<[id := m]> members).
Proof.
  intros Hall Hm id' m' Hlook.
  destruct (decide (id = id')) as [->|Hne].
  - rewrite lookup_insert_eq in Hlook. inversion Hlook; subst m'. assumption.
  - rewrite lookup_insert_ne in Hlook by assumption. eauto.
Qed.

Lemma run_call_keeps_NoDup (self : Library.t) (c : Trace.call) :
  borrowed_books_NoDup (Library.members self) ->
  borrowed_books_NoDup (Library.members (Trace.run_call self c)).
Proof.
  intros Hall.
  destruct c as [isbn title author publisher year copies io_ok
                |member_id name email phone address io_ok
                |member_id isbn now ts io_ok
                |member_id isbn now_test now_diff ts io_ok]; simpl.
  - unfold Library.add_book, Database.add_book.
    destruct (decide (is_Some (Library.books self !! isbn))); [assumption|].
    destruct io_ok; simpl; [|assumption].
    destruct (decide (isbn ∈ map Database.b_isbn
                                 (Database.books (Library.database self))));
      assumption.
  - unfold Library.add_member, Database.add_member.
    destruct (decide (is_Some (Library.members self !! member_id)));
      [assumption|].
    destruct io_ok; simpl; [|assumption].
    destruct (decide (member_id ∈ map Database.m_member_id
                                      (Database.members (Library.database self))));
      [assumption|].
    simpl. apply borrowed_books_NoDup_insert; [assumption|constructor].
  - unfold Library.borrow_book.
    destruct (Library.members self !! member_id) as [member|] eqn:Hm;
      [|assumption].
    destruct (Library.books self !! isbn) as [book|]; [|assumption].
    destruct (Member.is_active member); simpl; [|assumption].
    unfold Book.borrow_copy.
    destruct (0 <? Book.available_copies book); simpl; [|assumption].
    pose proof (NoDup_add_borrowed_book member isbn (Hall _ _ Hm)) as Hadd.
    destruct io_ok; simpl; apply borrowed_books_NoDup_insert; try assumption.
    apply NoDup_remove_borrowed_book. assumption.
  - unfold Library.return_book.
    destruct (Library.members self !! member_id) as [member|] eqn:Hm;
      [|assumption].
    destruct (Library.books self !! isbn) as [book|]; [|assumption].
    unfold Member.remove_borrowed_book.
    destruct (decide (isbn ∈ Member.borrowed_books member)); simpl;
      [|assumption].
    assert (Hrm : NoDup (remove_first isbn (Member.borrowed_books member)))
      by (apply NoDup_remove_first; eauto).
    destruct io_ok; simpl; apply borrowed_books_NoDup_insert; try assumption;
      destruct (0 <? _)%float; assumption.
Qed.

(** X2. In every state reached from a library opened on a new database,
    whatever the calls and whichever writes fail, no [borrowed_books] lists
    an isbn twice: the list is a set, as [add_borrowed_book] guards it. *)
Theorem borrowed_books_never_repeat (cs : list Trace.call)
    (id : string) (m : Member.t) :
  Library.members (Trace.run_calls Trace.fresh cs) !! id = Some m ->
  NoDup (Member.borrowed_books m).
Proof.
  assert (Hall : forall self, borrowed_books_NoDup (Library.members self) ->
            borrowed_books_NoDup (Library.members (Trace.run_calls self cs))).
  { induction cs as [|c cs IH]; intros self Hself; [assumption|].
    apply (IH (Trace.run_call self c)). apply run_call_keeps_NoDup. assumption. }
  apply Hall. intros id' m' Hlook. simpl in Hlook.
  rewrite lookup_empty in Hlook. discriminate.
Qed.

Lemma borrowed_books_never_repeat_witness :
  NoDup (Member.borrowed_books (demo_member [demo_isbn] 0%float)).
Proof.
  apply (borrowed_books_never_repeat demo_calls_borrow_twice "M1").
  vm_compute; reflexivity.
Defined.

(** X3. [add_borrowed_book] is idempotent, and after it the isbn is on the
    list. *)
Theorem add_borrowed_book_idempotent (m : Member.t) (isbn : string) :
  Member.add_borrowed_book (Member.add_borrowed_book m isbn) isbn
  = Member.add_borrowed_book m isbn
  /\ isbn ∈ Member.borrowed_books (Member.add_borrowed_book m isbn).
Proof.
  assert (Hin : isbn ∈ Member.borrowed_books (Member.add_borrowed_book m isbn)).
  { unfold Member.add_borrowed_book.
    destruct (decide (isbn ∈ Member.borrowed_books m)); [assumption|].
    simpl. apply elem_of_app. right. apply list_elem_of_here. }
  split; [|exact Hin].
  unfold Member.add_borrowed_book at 1.
  destruct (decide _); [reflexivity|contradiction].
Qed.

(** ** What reachable states give to the return at once *)

Lemma borrow_book_records (self : Library.t) (member_id isbn : string)
    (now : datetime) (ts : Z) (io_ok : bool) :
  let records' :=
    Database.borrowing_records
      (Library.database
         (snd (Library.borrow_book self member_id isbn now ts io_ok))) in
  let records := Database.borrowing_records (Library.database self) in
  records' = records
  \/ records'
     = (records
        ++ [Database.mk_borrowing_record
              (Database.sqlite_sequence (Library.database self) + 1)
              member_id isbn ts
              (now + timedelta_of_days Library.BORROWING_PERIOD_DAYS)
              None 0%float])%list.
Proof.
  unfold Library.borrow_book.
  destruct (Library.members self !! member_id) as [member|]; [|left; auto].
  destruct (Library.books self !! isbn) as [book|]; [|left; auto].
  destruct (Member.is_active member); simpl; [|left; auto].
  unfold Book.borrow_copy.
  destruct (0 <? Book.available_copies book); simpl; [|left; auto].
  destruct io_ok; simpl; [right|left]; reflexivity.
Qed.

Lemma return_book_records (self : Library.t) (member_id isbn : string)
    (now_test now_diff : datetime) (ts : Z) (io_ok : bool) :
  let records' :=
    Database.borrowing_records
      (Library.database
         (snd (Library.return_book self member_id isbn now_test now_diff
                 ts io_ok))) in
  let records := Database.borrowing_records (Library.database self) in
  records' = records
  \/ exists fine : float,
       records'
       = map (fun r => if Database.is_open_for member_id isbn r
                       then Database.set_returned ts fine r else r)
             records.
Proof.
  unfold Library.return_book.
  destruct (Library.members self !! member_id) as [member|]; [|left; auto].
  destruct (Library.books self !! isbn) as [book|]; [|left; auto].
  unfold Member.remove_borrowed_book.
  destruct (decide (isbn ∈ Member.borrowed_books member)); simpl; [|left; auto].
  destruct io_ok; simpl; [right; eexists|left]; reflexivity.
Qed.

Lemma run_call_keeps_stamped (utc_offset : Z) (now : datetime)
    (self : Library.t) (c : Trace.call) :
  call_stamped utc_offset now c ->
  Forall (stamped_by utc_offset now)
         (Database.borrowing_records (Library.database self)) ->
  Forall (stamped_by utc_offset now)
         (Database.borrowing_records (Library.database (Trace.run_call self c))).
Proof.
  intros Hc Hall.
  destruct c as [isbn title author publisher year copies io_ok
                |member_id name email phone address io_ok
                |member_id isbn t ts io_ok
                |member_id isbn now_test now_diff ts io_ok]; simpl in *.
  - unfold Library.add_book, Database.add_book.
    destruct (decide (is_Some (Library.books self !! isbn))); [assumption|].
    destruct io_ok; simpl; [|assumption].
    destruct (decide (isbn ∈ map Database.b_isbn
                                 (Database.books (Library.database self))));
      assumption.
  - unfold Library.add_member, Database.add_member.
    destruct (decide (is_Some (Library.members self !! member_id)));
      [assumption|].
    destruct io_ok; simpl; [|assumption].
    destruct (decide (member_id ∈ map Database.m_member_id
                                      (Database.members (Library.database self))));
      assumption.
  - destruct Hc as [Ht Hts].
    destruct (borrow_book_records self member_id isbn t ts io_ok) as [->| ->];
      [assumption|].
    apply Forall_app. split; [assumption|].
    apply Forall_singleton. exists t. simpl. auto.
  - destruct (return_book_records self member_id isbn now_test now_diff ts io_ok)
      as [->|[fine ->]]; [assumption|].
    apply Forall_fmap. eapply Forall_impl; [exact Hall|].
    intros r (t & Ht & Hb & Hd). simpl.
    destruct (Database.is_open_for member_id isbn r); exists t; simpl; auto.
Qed.

(** X4. When every [borrow_book] so far was called no later than [now] and
    read both of its timestamps from one clock, each open record of the store
    is older than a record stamped at [now] or not yet overdue at [now]: the
    condition under which C7 is stated holds in every state reached with
    clocks that run forward. *)
Theorem forward_clocks_give_older_or_not_due
    (utc_offset : Z) (cs : list Trace.call) (now : datetime)
    (member_id isbn : string) :
  Forall (call_stamped utc_offset now) cs ->
  open_records_older_or_not_due
    (Library.database (Trace.run_calls Trace.fresh cs)) member_id isbn
    now (sqlite_clock utc_offset now).
Proof.
  intros Hcs.
  assert (Hall : forall self,
            Forall (stamped_by utc_offset now)
                   (Database.borrowing_records (Library.database self)) ->
            Forall (stamped_by utc_offset now)
                   (Database.borrowing_records
                      (Library.database (Trace.run_calls self cs)))).
  { induction Hcs as [|c cs Hc Hcs IH]; intros self Hself; [assumption|].
    apply (IH (Trace.run_call self c)).
    apply run_call_keeps_stamped; assumption. }
  specialize (Hall Trace.fresh (Forall_nil_2 _)).
  intros r Hr. apply elem_of_open_records in Hr as [Hr _].
  rewrite Forall_forall in Hall.
  destruct (Hall r Hr) as (t & Ht & Hb & Hd).
  rewrite Hb, Hd. unfold sqlite_clock, timedelta_of_days,
    Library.BORROWING_PERIOD_DAYS, US_PER_DAY.
  destruct (Z_lt_le_dec ((t - utc_offset) `div` 1000000)
                        ((now - utc_offset) `div` 1000000)) as [Hlt|Hge];
    [left; exact Hlt|right].
  pose proof (Z.div_mod (t - utc_offset) 1000000 ltac:(lia)) as Ht'.
  pose proof (Z.div_mod (now - utc_offset) 1000000 ltac:(lia)) as Hn'.
  pose proof (Z.mod_pos_bound (t - utc_offset) 1000000 ltac:(lia)).
  pose proof (Z.mod_pos_bound (now - utc_offset) 1000000 ltac:(lia)).
  lia.
Qed.

Lemma forward_clocks_give_older_or_not_due_witness :
  open_records_older_or_not_due
    (Library.database (Trace.run_calls Trace.fresh demo_calls_borrow_twice))
    "M1" demo_isbn (day 20) (sqlite_clock 0 (day 20)).
Proof.
  apply (forward_clocks_give_older_or_not_due 0 demo_calls_borrow_twice (day 20)).
  unfold demo_calls_borrow_twice.
  repeat (apply Forall_cons; split; [|]); try apply Forall_nil_2;
    try exact I; simpl; split; (reflexivity || (vm_compute; discriminate)).
Defined.

Lemma run_call_keeps_within_total (self : Library.t) (c : Trace.call) :
  books_within_total (Library.books self) ->
  books_within_total (Library.books (Trace.run_call self c)).
Proof.
  intros Hall.
  assert (Hins : forall (books : gmap string Book.t) isbn b,
            books_within_total books ->
            Book.available_copies b <= Book.total_copies b ->
            books_within_total (<[isbn := b]> books)).
  { intros books isbn b Hbooks Hb isbn' b' Hlook.
    destruct (decide (isbn = isbn')) as [->|Hne].
    - rewrite lookup_insert_eq in Hlook. inversion Hlook; subst b'. assumption.
    - rewrite lookup_insert_ne in Hlook by assumption. eauto. }
  destruct c as [isbn title author publisher year copies io_ok
                |member_id name email phone address io_ok
                |member_id isbn now ts io_ok
                |member_id isbn now_test now_diff ts io_ok]; simpl.
  - unfold Library.add_book, Database.add_book.
    destruct (decide (is_Some (Library.books self !! isbn))); [assumption|].
    destruct io_ok; simpl; [|assumption].
    destruct (decide (isbn ∈ map Database.b_isbn
                                 (Database.books (Library.database self))));
      [assumption|].
    simpl. apply Hins; [assumption|simpl; lia].
  - unfold Library.add_member, Database.add_member.
    destruct (decide (is_Some (Library.members self !! member_id)));
      [assumption|].
    destruct io_ok; simpl; [|assumption].
    destruct (decide (member_id ∈ map Database.m_member_id
                                      (Database.members (Library.database self))));
      assumption.
  - unfold Library.borrow_book.
    destruct (Library.members self !! member_id) as [member|]; [|assumption].
    destruct (Library.books self !! isbn) as [book|] eqn:Hb; [|assumption].
    destruct (Member.is_active member); simpl; [|assumption].
    pose proof (Hall _ _ Hb) as Hle.
    unfold Book.borrow_copy.
    destruct (0 <? Book.available_copies book); simpl; [|assumption].
    destruct io_ok; simpl; apply Hins; try assumption; simpl; [lia|].
    unfold Book.return_copy. simpl.
    destruct (Book.available_copies book - 1 <? Book.total_copies book) eqn:E;
      simpl; lia.
  - unfold Library.return_book.
    destruct (Library.members self !! member_id) as [member|]; [|assumption].
    destruct (Library.books self !! isbn) as [book|] eqn:Hb; [|assumption].
    unfold Member.remove_borrowed_book.
    destruct (decide (isbn ∈ Member.borrowed_books member)); simpl;
      [|assumption].
    pose proof (Hall _ _ Hb) as Hle.
    assert (Hret : Book.available_copies (snd (Book.return_copy book))
                   <= Book.total_copies (snd (Book.return_copy book))).
    { unfold Book.return_copy.
      destruct (Book.available_copies book <? Book.total_copies book) eqn:E;
        simpl; [apply Z.ltb_lt in E|]; lia. }
    destruct io_ok; simpl; apply Hins; assumption.
Qed.

(** X5. In every state reached from a library opened on a new database,
    whatever the calls and whichever writes fail, every book has
    [available_copies <= total_copies]: the bound C7 asks of the book. *)
Theorem reachable_books_within_total (cs : list Trace.call)
    (isbn : string) (b : Book.t) :
  Library.books (Trace.run_calls Trace.fresh cs) !! isbn = Some b ->
  Book.available_copies b <= Book.total_copies b.
Proof.
  assert (Hall : forall self, books_within_total (Library.books self) ->
            books_within_total (Library.books (Trace.run_calls self cs))).
  { induction cs as [|c cs IH]; intros self Hself; [assumption|].
    apply (IH (Trace.run_call self c)).
    apply run_call_keeps_within_total. assumption. }
  apply Hall. intros isbn' b' Hlook. simpl in Hlook.
  rewrite lookup_empty in Hlook. discriminate.
Qed.

Lemma reachable_books_within_total_witness :
  Book.available_copies (demo_book 0) <= Book.total_copies (demo_book 0).
Proof.
  apply (reachable_books_within_total demo_calls_borrow_twice demo_isbn).
  vm_compute; reflexivity.
Defined.

(** ** The scenarios of the specification, run on the code *)

(** The two readings of the clock in [_calculate_fine]: with a clock that
    does not step back between them, the fine counts the whole days between
    the due date and the second reading. *)
Lemma calculate_fine_two_readings (self : Library.t) (member_id isbn : string)
    (now_test now_diff : datetime) (r : Database.borrowing_record) :
  Database.select_latest_open (Library.database self) member_id isbn = Some r ->
  Database.due_date r < now_test <= now_diff ->
  Library._calculate_fine self member_id isbn now_test now_diff
  = (float_of_int ((now_diff - Database.due_date r) `quot` US_PER_DAY)
     * Library.DAILY_FINE)%float.
Proof.
  intros Hsel [Hdue Hle]. unfold Library._calculate_fine. rewrite Hsel.
  replace (Database.due_date r <? now_test) with true
    by (symmetry; apply Z.ltb_lt; assumption).
  unfold timedelta_days.
  rewrite Z.quot_div_nonneg by (unfold US_PER_DAY; lia). reflexivity.
Qed.

(** Two copies: "M1" and "M2" borrow one each, "M3" finds none left. *)
Example scenario_third_borrower_finds_no_copy :
  let lib0 :=
    Trace.run_calls demo_library
      [Trace.AddMember "M2" "Bob" "bob@example.org" "555-0101" "2 Main St" true;
       Trace.AddMember "M3" "Cy" "cy@example.org" "555-0102" "3 Main St" true] in
  let '(res1, lib1) := Library.borrow_book lib0 "M1" demo_isbn (day 0) 0 true in
  let '(res2, lib2) := Library.borrow_book lib1 "M2" demo_isbn (day 0) 1 true in
  let '(res3, lib3) := Library.borrow_book lib2 "M3" demo_isbn (day 0) 2 true in
  Library.books lib0 !! demo_isbn = Some (demo_book 2)
  /\ res1 = (true, BorrowedSuccessfully "X" (day 14))
  /\ Library.books lib1 !! demo_isbn = Some (demo_book 1)
  /\ res2 = (true, BorrowedSuccessfully "X" (day 14))
  /\ Library.books lib2 !! demo_isbn = Some (demo_book 0)
  /\ res3 = (false, Text "Book not available")
  /\ lib3 = lib2.
Proof. vm_compute. repeat (split; [reflexivity|]). reflexivity. Qed.

(** A loan returned fourteen days after its due date: the fine is 14.0 and
    it is added to [total_fines]; a few hours more do not add a day. *)
Example scenario_fourteen_days_overdue :
  let now := day 28 + 5 * 3600000000 in
  let '(res, lib) :=
    Library.return_book demo_on_loan "M1" demo_isbn now now 2437200 true in
  Library._calculate_fine demo_on_loan "M1" demo_isbn now now = 14%float
  /\ res = (true, ReturnedSuccessfully "X" (Some 14%float))
  /\ Library.members lib !! "M1" = Some (demo_member [] 14%float)
  /\ Library.books lib !! demo_isbn = Some (demo_book 2)
  /\ Database.borrowing_records (Library.database lib)
     = [demo_record 1 0 (day 14) (Some 2437200) 14%float].
Proof. vm_compute. repeat (split; [reflexivity|]). reflexivity. Qed.

(** Returning a title the member never borrowed changes nothing. *)
Example scenario_return_of_a_title_not_borrowed :
  let lib0 :=
    Trace.run_call demo_on_loan
      (Trace.AddBook "2222222222" "P" "Q" "R" 2021 1 true) in
  Library.return_book lib0 "M1" "2222222222" (day 1) (day 1) 86400 true
  = ((false, Text "This book was not borrowed by this member"), lib0).
Proof. vm_compute. reflexivity. Qed.

(** * The rest of the code: lookups, search, statistics, reopening *)

(** ** Copies and borrowed lists: calls that undo each other *)

(** X6. On a book within its bounds, [borrow_copy] succeeds exactly when a
    copy is available and [return_copy] exactly when one is out, each undoes
    the other, and in the dictionary of [get_availability] the borrowed
    copies are what is missing from the total, one more after a successful
    [borrow_copy]. *)
Theorem borrow_copy_return_copy_undo (b : Book.t) :
  0 <= Book.available_copies b <= Book.total_copies b ->
  (fst (Book.borrow_copy b) = true <-> 0 < Book.available_copies b)
  /\ (fst (Book.return_copy b) = true
      <-> Book.available_copies b < Book.total_copies b)
  /\ (fst (Book.borrow_copy b) = true ->
      Book.return_copy (snd (Book.borrow_copy b)) = (true, b)
      /\ Book.borrowed (Book.get_availability (snd (Book.borrow_copy b)))
         = Book.borrowed (Book.get_availability b) + 1)
  /\ (fst (Book.return_copy b) = true ->
      Book.borrow_copy (snd (Book.return_copy b)) = (true, b)
      /\ Book.borrowed (Book.get_availability (snd (Book.return_copy b)))
         = Book.borrowed (Book.get_availability b) - 1)
  /\ Book.available (Book.get_availability b)
     + Book.borrowed (Book.get_availability b)
     = Book.total (Book.get_availability b)
  /\ 0 <= Book.borrowed (Book.get_availability b)
       <= Book.total (Book.get_availability b).
Proof.
  intros [Hlo Hhi]. destruct b as [i t a p y total avail]. simpl in *.
  unfold Book.borrow_copy, Book.return_copy, Book.get_availability,
    Book.set_available_copies. simpl.
  destruct (0 <? avail) eqn:Hb; destruct (avail <? total) eqn:Hr; simpl;
    try apply Z.ltb_lt in Hb; try apply Z.ltb_ge in Hb;
    try apply Z.ltb_lt in Hr; try apply Z.ltb_ge in Hr;
    repeat match goal with
           | |- _ /\ _ => split
           | |- _ <-> _ => split
           | |- _ -> _ => intro
           end;
    try discriminate; try lia; try reflexivity;
    try (replace (avail - 1 <? total) with true
           by (symmetry; apply Z.ltb_lt; lia));
    try (replace (0 <? avail + 1) with true
           by (symmetry; apply Z.ltb_lt; lia));
    try (f_equal; f_equal; lia).
Qed.

Lemma borrow_copy_return_copy_undo_witness :
  0 <= Book.available_copies (demo_book 1) <= Book.total_copies (demo_book 1)
  /\ Book.return_copy (snd (Book.borrow_copy (demo_book 1)))
     = (true, demo_book 1)
  /\ Book.borrow_copy (snd (Book.return_copy (demo_book 1)))
     = (true, demo_book 1).
Proof.
  assert (H : 0 <= Book.available_copies (demo_book 1)
              <= Book.total_copies (demo_book 1)) by (simpl; lia).
  split; [exact H|].
  destruct (borrow_copy_return_copy_undo (demo_book 1) H)
    as (_ & _ & Hbr & Hrb & _).
  split; [apply Hbr|apply Hrb]; reflexivity.
Defined.

Lemma length_remove_first (x : string) (l : list string) :
  x ∈ l -> S (length (remove_first x l)) = length l.
Proof.
  induction l as [|y l IH]; intros Hx; [inversion Hx|]. simpl.
  destruct (decide (x = y)); [reflexivity|].
  apply elem_of_cons in Hx as [Hx|Hx]; [congruence|].
  simpl. rewrite IH by assumption. reflexivity.
Qed.

Lemma elem_of_remove_first_other (x y : string) (l : list string) :
  y <> x -> (y ∈ remove_first x l <-> y ∈ l).
Proof.
  intros Hne. induction l as [|z l IH]; simpl; [tauto|].
  destruct (decide (x = z)) as [->|Hxz].
  - rewrite elem_of_cons. split; [auto|]. intros [?|?]; [congruence|assumption].
  - rewrite !elem_of_cons, IH. tauto.
Qed.

(** X7. [remove_borrowed_book] returns [True] exactly when the isbn is on
    the list; it then takes one entry off the list and no other isbn comes
    or goes; otherwise the member is unchanged.  [add_borrowed_book] of an
    isbn that is not on the list makes the list one longer, and the removal
    that follows gives the member back. *)
Theorem remove_borrowed_book_takes_one (m : Member.t) (isbn : string) :
  (fst (Member.remove_borrowed_book m isbn) = true
   <-> isbn ∈ Member.borrowed_books m)
  /\ (isbn ∈ Member.borrowed_books m ->
      Member.get_borrowed_count (snd (Member.remove_borrowed_book m isbn))
      = Member.get_borrowed_count m - 1
      /\ forall other : string,
           other <> isbn ->
           (other ∈ Member.borrowed_books
                      (snd (Member.remove_borrowed_book m isbn))
            <-> other ∈ Member.borrowed_books m))
  /\ (isbn ∉ Member.borrowed_books m ->
      Member.remove_borrowed_book m isbn = (false, m)
      /\ Member.get_borrowed_count (Member.add_borrowed_book m isbn)
         = Member.get_borrowed_count m + 1
      /\ Member.remove_borrowed_book (Member.add_borrowed_book m isbn) isbn
         = (true, m)).
Proof.
  unfold Member.remove_borrowed_book at 1 2 3 4.
  destruct (decide (isbn ∈ Member.borrowed_books m)) as [Hin|Hnot]; simpl.
  - split; [tauto|]. split; [|contradiction].
    intros _. split.
    + unfold Member.get_borrowed_count. simpl.
      rewrite <- (length_remove_first isbn _ Hin). lia.
    + intros other Hne. apply elem_of_remove_first_other. assumption.
  - split; [split; [discriminate|contradiction]|].
    split; [contradiction|]. intros _. split; [reflexivity|].
    unfold Member.add_borrowed_book.
    destruct (decide (isbn ∈ Member.borrowed_books m)); [contradiction|].
    split.
    + unfold Member.get_borrowed_count. simpl. rewrite length_app. simpl. lia.
    + unfold Member.remove_borrowed_book. simpl.
      destruct (decide (isbn ∈ (Member.borrowed_books m ++ [isbn])%list))
        as [_|Hn].
      * rewrite remove_first_app_absent by assumption.
        destruct m; reflexivity.
      * exfalso. apply Hn. apply elem_of_app. right. apply list_elem_of_here.
Qed.

(** ** The tables of books and members: insert and look up *)

Lemma head_filter_snoc {A : Type} (P : A -> Prop) `{!forall x, Decision (P x)}
    (l : list A) (x : A) :
  head (filter P (l ++ [x])%list)
  = match head (filter P l) with
    | Some y => Some y
    | None => if decide (P x) then Some x else None
    end.
Proof.
  induction l as [|y l IH]; simpl.
  - rewrite filter_cons, filter_nil. destruct (decide (P x)); reflexivity.
  - rewrite !filter_cons. destruct (decide (P y)); [reflexivity|exact IH].
Qed.

Lemma head_filter_None {A : Type} (P : A -> Prop) `{!forall x, Decision (P x)}
    (l : list A) :
  head (filter P l) = None <-> forall x, x ∈ l -> ~ P x.
Proof.
  induction l as [|y l IH].
  - rewrite filter_nil. simpl. split; [|reflexivity].
    intros _ x Hx. inversion Hx.
  - rewrite filter_cons. destruct (decide (P y)) as [Hy|Hy]; simpl.
    + split; [discriminate|]. intros Hall. exfalso.
      apply (Hall y); [left|assumption].
    + rewrite IH. split.
      * intros Hall x Hx. apply elem_of_cons in Hx as [->|Hx]; auto.
      * intros Hall x Hx. apply Hall. right. assumption.
Qed.

Lemma get_book_None (db : Database.t) (isbn : string) :
  Database.get_book db isbn = None
  <-> isbn ∉ map Database.b_isbn (Database.books db).
Proof.
  unfold Database.get_book. rewrite head_filter_None. split.
  - intros H Hin. apply list_elem_of_fmap in Hin as (r & -> & Hr).
    apply (H r Hr). reflexivity.
  - intros H r Hr Heq. apply H. apply list_elem_of_fmap. exists r. auto.
Qed.

Lemma get_member_None (db : Database.t) (member_id : string) :
  Database.get_member db member_id = None
  <-> member_id ∉ map Database.m_member_id (Database.members db).
Proof.
  unfold Database.get_member. rewrite head_filter_None. split.
  - intros H Hin. apply list_elem_of_fmap in Hin as (r & -> & Hr).
    apply (H r Hr). reflexivity.
  - intros H r Hr Heq. apply H. apply list_elem_of_fmap. exists r. auto.
Qed.


(** X9. [Database.add_member], when SQLite does not fail, returns [True]
    exactly when [get_member] finds no row for the id; the new row is then
    what [get_member] returns for it, active and with no fines, and every
    other key and table is as before; on [False] the database is unchanged.
    When SQLite fails the exception is not caught. *)
Theorem database_add_member_get_member
    (db : Database.t) (member_id name email phone address : string) :
  Database.add_member db member_id name email phone address false
  = Raise_sqlite3_Error
  /\ exists (ok : bool) (db' : Database.t),
       Database.add_member db member_id name email phone address true
       = Return (ok, db')
       /\ (ok = true <-> Database.get_member db member_id = None)
       /\ (ok = false -> db' = db)
       /\ (ok = true ->
           Database.get_member db' member_id
           = Some (Database.mk_member_row member_id name email phone address
                     1 0%float)
           /\ (forall id' : string,
                 id' <> member_id ->
                 Database.get_member db' id' = Database.get_member db id')
           /\ Database.books db' = Database.books db
           /\ Database.borrowing_records db' = Database.borrowing_records db).
Proof.
  split; [reflexivity|]. unfold Database.add_member. simpl.
  destruct (decide (member_id ∈ map Database.m_member_id (Database.members db)))
    as [Hin|Hnot].
  - exists false, db. split; [reflexivity|].
    split; [rewrite get_member_None; split; [discriminate|contradiction]|].
    split; [reflexivity|discriminate].
  - eexists true, _. split; [reflexivity|].
    split; [rewrite get_member_None; tauto|].
    split; [discriminate|]. intros _.
    apply get_member_None in Hnot.
    unfold Database.get_member in *. simpl.
    split; [|split; [|split; reflexivity]].
    + rewrite head_filter_snoc, Hnot. simpl.
      destruct (decide (member_id = member_id)); [reflexivity|congruence].
    + intros id' Hne. rewrite head_filter_snoc. simpl.
      destruct (decide (member_id = id')); [congruence|].
      destruct (head (filter (fun r => Database.m_member_id r = id') _));
        reflexivity.
Qed.

(** ** Memory and the tables of books and members *)

(** X10. [Library.add_book] follows store-then-cache: it returns [True] only
    when the isbn was in neither memory nor the table and SQLite did not
    fail, and then both have the new book, all copies available; it returns
    [False] with nothing changed when memory or the table has the isbn; an
    exception escapes only when SQLite fails for an isbn memory does not
    have, so an isbn already in memory is refused without a database access. *)
Theorem library_add_book_commit
    (self : Library.t) (isbn title author publisher : string)
    (publication_year total_copies : Z) (io_ok : bool) :
  match Library.add_book self isbn title author publisher publication_year
                         total_copies io_ok with
  | Return (true, self') =>
      io_ok = true
      /\ Library.books self !! isbn = None
      /\ Database.get_book (Library.database self) isbn = None
      /\ Library.books self'
         = <[isbn := Book.init isbn title author publisher publication_year
                               total_copies]> (Library.books self)
      /\ Database.get_book (Library.database self') isbn
         = Some (row_of_book (Book.init isbn title author publisher
                                publication_year total_copies))
      /\ Library.members self' = Library.members self
  | Return (false, self') =>
      self' = self
      /\ (is_Some (Library.books self !! isbn)
          \/ (io_ok = true
              /\ is_Some (Database.get_book (Library.database self) isbn)))
  | Raise_sqlite3_Error =>
      io_ok = false /\ Library.books self !! isbn = None
  end.
Proof.
  unfold Library.add_book.
  destruct (decide (is_Some (Library.books self !! isbn))) as [Hmem|Hmem].
  - split; [reflexivity|left; assumption].
  - assert (Hnone : Library.books self !! isbn = None)
      by (destruct (Library.books self !! isbn); [exfalso; eauto|reflexivity]).
    destruct io_ok; [|split; [reflexivity|assumption]].
    unfold Database.add_book. simpl.
    destruct (decide (isbn ∈ map Database.b_isbn
                                 (Database.books (Library.database self))))
      as [Hin|Hnot].
    + split; [destruct self; reflexivity|].
      right. split; [reflexivity|].
      destruct (Database.get_book (Library.database self) isbn) eqn:E;
        [eauto|]. apply get_book_None in E. contradiction.
    + apply get_book_None in Hnot.
      repeat split; try assumption; try reflexivity.
      unfold Database.get_book in *. simpl.
      rewrite head_filter_snoc, Hnot. simpl.
      destruct (decide (isbn = isbn)); [reflexivity|congruence].
Qed.

(** X11. [Library.add_member] follows the same rule, keyed by the member id;
    the member it creates is active, holds nothing and owes nothing. *)
Theorem library_add_member_commit
    (self : Library.t) (member_id name email phone address : string)
    (io_ok : bool) :
  match Library.add_member self member_id name email phone address io_ok with
  | Return (true, self') =>
      io_ok = true
      /\ Library.members self !! member_id = None
      /\ Database.get_member (Library.database self) member_id = None
      /\ Library.members self'
         = <[member_id := Member.mk member_id name email phone address
                                    true [] 0%float]> (Library.members self)
      /\ Database.get_member (Library.database self') member_id
         = Some (row_of_member (Member.init member_id name email phone address))
      /\ Library.books self' = Library.books self
  | Return (false, self') =>
      self' = self
      /\ (is_Some (Library.members self !! member_id)
          \/ (io_ok = true
              /\ is_Some (Database.get_member (Library.database self)
                                              member_id)))
  | Raise_sqlite3_Error =>
      io_ok = false /\ Library.members self !! member_id = None
  end.
Proof.
  unfold Library.add_member.
  destruct (decide (is_Some (Library.members self !! member_id)))
    as [Hmem|Hmem].
  - split; [reflexivity|left; assumption].
  - assert (Hnone : Library.members self !! member_id = None)
      by (destruct (Library.members self !! member_id);
          [exfalso; eauto|reflexivity]).
    destruct io_ok; [|split; [reflexivity|assumption]].
    unfold Database.add_member. simpl.
    destruct (decide (member_id ∈ map Database.m_member_id
                                      (Database.members (Library.database self))))
      as [Hin|Hnot].
    + split; [destruct self; reflexivity|].
      right. split; [reflexivity|].
      destruct (Database.get_member (Library.database self) member_id) eqn:E;
        [eauto|]. apply get_member_None in E. contradiction.
    + apply get_member_None in Hnot.
      repeat split; try assumption; try reflexivity.
      unfold Database.get_member in *. simpl.
      rewrite head_filter_snoc, Hnot. simpl.
      destruct (decide (member_id = member_id)); [reflexivity|congruence].
Qed.

(** ** What a call leaves of the tables and of memory *)

Lemma reopened_book_set_available_copies (b : Book.t) (n : Z) :
  reopened_book (Book.set_available_copies b n) = reopened_book b.
Proof. reflexivity. Qed.

Lemma reopened_book_borrow_copy (b : Book.t) :
  reopened_book (snd (Book.borrow_copy b)) = reopened_book b.
Proof.
  unfold Book.borrow_copy. destruct (0 <? Book.available_copies b); reflexivity.
Qed.

Lemma reopened_book_return_copy (b : Book.t) :
  reopened_book (snd (Book.return_copy b)) = reopened_book b.
Proof.
  unfold Book.return_copy.
  destruct (Book.available_copies b <? Book.total_copies b); reflexivity.
Qed.

Lemma reopened_member_add_borrowed_book (m : Member.t) (isbn : string) :
  reopened_member (Member.add_borrowed_book m isbn) = reopened_member m.
Proof.
  unfold Member.add_borrowed_book.
  destruct (decide (isbn ∈ Member.borrowed_books m)); reflexivity.
Qed.

Lemma reopened_member_remove_borrowed_book (m : Member.t) (isbn : string) :
  reopened_member (snd (Member.remove_borrowed_book m isbn)) = reopened_member m.
Proof.
  unfold Member.remove_borrowed_book.
  destruct (decide (isbn ∈ Member.borrowed_books m)); reflexivity.
Qed.

Lemma reopened_member_returned_member (m : Member.t) (isbn : string)
    (fine : float) :
  reopened_member (returned_member m isbn fine) = reopened_member m.
Proof. unfold returned_member. destruct (0 <? fine)%float; reflexivity. Qed.

(** A call adds a book to the table and to memory, or a member to both, or
    leaves the two tables alone and changes in memory at most one book and
    one member, and of these only what reopening forgets. *)
Lemma run_call_shape (self : Library.t) (c : Trace.call) :
  let self' := Trace.run_call self c in
  let db := Library.database self in
  let db' := Library.database self' in
  (exists b : Book.t,
     Library.books self !! Book.isbn b = None
     /\ (Book.isbn b ∉ map Database.b_isbn (Database.books db))
     /\ reopened_book b = b
     /\ Database.books db' = (Database.books db ++ [row_of_book b])%list
     /\ Library.books self' = <[Book.isbn b := b]> (Library.books self)
     /\ Database.members db' = Database.members db
     /\ Library.members self' = Library.members self)
  \/ (exists m : Member.t,
        Library.members self !! Member.member_id m = None
        /\ (Member.member_id m
              ∉ map Database.m_member_id (Database.members db))
        /\ reopened_member m = m
        /\ Database.members db'
           = (Database.members db ++ [row_of_member m])%list
        /\ Library.members self'
           = <[Member.member_id m := m]> (Library.members self)
        /\ Database.books db' = Database.books db
        /\ Library.books self' = Library.books self)
  \/ (Database.books db' = Database.books db
      /\ Database.members db' = Database.members db
      /\ (Library.books self' = Library.books self
          \/ exists (isbn : string) (b b' : Book.t),
               Library.books self !! isbn = Some b
               /\ reopened_book b' = reopened_book b
               /\ Library.books self' = <[isbn := b']> (Library.books self))
      /\ (Library.members self' = Library.members self
          \/ exists (id : string) (m m' : Member.t),
               Library.members self !! id = Some m
               /\ reopened_member m' = reopened_member m
               /\ Member.is_active m' = Member.is_active m
               /\ Library.members self'
                  = <[id := m']> (Library.members self))).
Proof.
  destruct c as [isbn title author publisher year copies io_ok
                |member_id name email phone address io_ok
                |member_id isbn now ts io_ok
                |member_id isbn now_test now_diff ts io_ok]; simpl.
  - unfold Library.add_book, Database.add_book.
    destruct (decide (is_Some (Library.books self !! isbn))) as [|Hmem];
      [right; right; auto|].
    destruct io_ok; simpl; [|right; right; auto].
    destruct (decide (isbn ∈ map Database.b_isbn
                                 (Database.books (Library.database self))));
      simpl; [right; right; auto|].
    left. exists (Book.init isbn title author publisher year copies). simpl.
    repeat split; try assumption; try reflexivity.
    destruct (Library.books self !! isbn); [exfalso; eauto|reflexivity].
  - unfold Library.add_member, Database.add_member.
    destruct (decide (is_Some (Library.members self !! member_id))) as [|Hmem];
      [right; right; auto|].
    destruct io_ok; simpl; [|right; right; auto].
    destruct (decide (member_id ∈ map Database.m_member_id
                                      (Database.members (Library.database self))));
      simpl; [right; right; auto|].
    right. left. exists (Member.init member_id name email phone address). simpl.
    repeat split; try assumption; try reflexivity.
    destruct (Library.members self !! member_id); [exfalso; eauto|reflexivity].
  - right. right. unfold Library.borrow_book.
    destruct (Library.members self !! member_id) as [member|] eqn:Hm; [|auto].
    destruct (Library.books self !! isbn) as [book|] eqn:Hb; [|auto].
    destruct (Member.is_active member) eqn:Hact; simpl; [|auto].
    unfold Book.borrow_copy.
    destruct (0 <? Book.available_copies book); simpl; [|auto].
    destruct io_ok; simpl.
    + split; [reflexivity|]. split; [reflexivity|]. split; right.
      * exists isbn, book. eexists. split; [exact Hb|]. split; [|reflexivity].
        reflexivity.
      * exists member_id, member. eexists. split; [exact Hm|].
        split; [apply reopened_member_add_borrowed_book|].
        split; [|reflexivity].
        unfold Member.add_borrowed_book.
        destruct (decide (isbn ∈ Member.borrowed_books member)); reflexivity.
    + split; [reflexivity|]. split; [reflexivity|]. split; right.
      * exists isbn, book. eexists. split; [exact Hb|]. split; [|reflexivity].
        rewrite reopened_book_return_copy. reflexivity.
      * exists member_id, member. eexists. split; [exact Hm|].
        split; [|split; [|reflexivity]].
        -- rewrite reopened_member_remove_borrowed_book.
           apply reopened_member_add_borrowed_book.
        -- unfold Member.remove_borrowed_book, Member.add_borrowed_book.
           destruct (decide (isbn ∈ Member.borrowed_books member));
             destruct (decide _); reflexivity.
  - right. right. unfold Library.return_book.
    destruct (Library.members self !! member_id) as [member|] eqn:Hm; [|auto].
    destruct (Library.books self !! isbn) as [book|] eqn:Hb; [|auto].
    unfold Member.remove_borrowed_book.
    destruct (decide (isbn ∈ Member.borrowed_books member)); simpl; [|auto].
    assert (Hmem : forall fine : float,
              reopened_member
                (if (0 <? fine)%float
                 then Member.add_fine
                        (Member.set_borrowed_books member
                           (remove_first isbn (Member.borrowed_books member)))
                        fine
                 else Member.set_borrowed_books member
                        (remove_first isbn (Member.borrowed_books member)))
              = reopened_member member
              /\ Member.is_active
                   (if (0 <? fine)%float
                    then Member.add_fine
                           (Member.set_borrowed_books member
                              (remove_first isbn (Member.borrowed_books member)))
                           fine
                    else Member.set_borrowed_books member
                           (remove_first isbn (Member.borrowed_books member)))
                 = Member.is_active member).
    { intros fine. destruct (0 <? fine)%float; split; reflexivity. }
    destruct io_ok; simpl; (split; [reflexivity|]); (split; [reflexivity|]);
      split; right.
    + exists isbn, book. eexists. split; [exact Hb|]. split; [|reflexivity].
      apply reopened_book_return_copy.
    + exists member_id, member. eexists. split; [exact Hm|].
      split; [apply Hmem|]. split; [apply Hmem|reflexivity].
    + exists isbn, book. eexists. split; [exact Hb|]. split; [|reflexivity].
      apply reopened_book_return_copy.
    + exists member_id, member. eexists. split; [exact Hm|].
      split; [apply Hmem|]. split; [apply Hmem|reflexivity].
Qed.

(** ** Reopening the library *)

Lemma load_book_row_of_book (books : gmap string Book.t) (b : Book.t) :
  Library.load_book books (row_of_book b)
  = <[Book.isbn b := reopened_book b]> books.
Proof. destruct b; reflexivity. Qed.

Lemma load_member_row_of_member (members : gmap string Member.t)
    (m : Member.t) :
  Library.load_member members (row_of_member m)
  = <[Member.member_id m := reopened_member m]> members.
Proof. destruct m; reflexivity. Qed.

Lemma fmap_insert_same_image {A B : Type} (f : A -> B) (d : gmap string A)
    (k : string) (x x' : A) :
  d !! k = Some x -> f x' = f x -> f <$> <[k := x']> d = f <$> d.
Proof.
  intros Hk Hf. rewrite fmap_insert, Hf. apply insert_id.
  rewrite lookup_fmap, Hk. reflexivity.
Qed.

Lemma run_call_keeps_reopening (self : Library.t) (c : Trace.call) :
  Library.init (Library.database self)
  = Library.mk (Library.database self) (reopened_book <$> Library.books self)
               (reopened_member <$> Library.members self) ->
  Library.init (Library.database (Trace.run_call self c))
  = Library.mk (Library.database (Trace.run_call self c))
               (reopened_book <$> Library.books (Trace.run_call self c))
               (reopened_member <$> Library.members (Trace.run_call self c)).
Proof.
  intros Hinv. unfold Library.init, Library._load_from_db in *. simpl in *.
  inversion Hinv as [[Hbooks Hmembers]]. clear Hinv.
  destruct (run_call_shape self c)
    as [(b & _ & _ & Hb & Hrows & Hmem & Hmrows & Hmmem)
       |[(m & _ & _ & Hm & Hmrows & Hmmem & Hrows & Hmem)
        |(Hrows & Hmrows & Hmem & Hmmem)]];
    rewrite Hrows, Hmrows; f_equal.
  - rewrite fold_left_app, Hbooks, Hmem. simpl.
    rewrite load_book_row_of_book, fmap_insert, Hb. reflexivity.
  - rewrite Hmembers, Hmmem. reflexivity.
  - rewrite Hbooks, Hmem. reflexivity.
  - rewrite fold_left_app, Hmembers, Hmmem. simpl.
    rewrite load_member_row_of_member, fmap_insert, Hm. reflexivity.
  - rewrite Hbooks. destruct Hmem as [->|(i & b & b' & Hb & Hre & ->)];
      [reflexivity|].
    symmetry. apply (fmap_insert_same_image _ _ _ b); assumption.
  - rewrite Hmembers.
    destruct Hmmem as [->|(i & m & m' & Hm & Hre & _ & ->)]; [reflexivity|].
    symmetry. apply (fmap_insert_same_image _ _ _ m); assumption.
Qed.

(** X12. Whatever calls a library opened on a new database has served, and
    whichever writes failed, reopening it on its database gives the same
    books and members, but every book with all its copies available and
    every member active, holding nothing and owing nothing: neither the
    available copies, nor the borrowed lists, nor the fines are ever written
    to the tables. *)
Theorem reopening_forgets_loans_and_fines (cs : list Trace.call) :
  let self := Trace.run_calls Trace.fresh cs in
  Library.init (Library.database self)
  = Library.mk (Library.database self)
               (reopened_book <$> Library.books self)
               (reopened_member <$> Library.members self).
Proof.
  assert (Hall : forall self,
            Library.init (Library.database self)
            = Library.mk (Library.database self)
                         (reopened_book <$> Library.books self)
                         (reopened_member <$> Library.members self) ->
            Library.init (Library.database (Trace.run_calls self cs))
            = Library.mk (Library.database (Trace.run_calls self cs))
                (reopened_book <$> Library.books (Trace.run_calls self cs))
                (reopened_member <$> Library.members (Trace.run_calls self cs))).
  { induction cs as [|c cs IH]; intros self Hself; [assumption|].
    apply (IH (Trace.run_call self c)). apply run_call_keeps_reopening.
    assumption. }
  apply Hall. unfold Trace.fresh, Library.init, Library._load_from_db. simpl.
  rewrite !fmap_empty. reflexivity.
Qed.

Lemma row_of_book_reopened (b : Book.t) :
  row_of_book (reopened_book b) = row_of_book b.
Proof. reflexivity. Qed.

Lemma row_of_member_reopened (m : Member.t) :
  row_of_member (reopened_member m) = row_of_member m.
Proof. reflexivity. Qed.

Lemma run_call_keeps_rows (self : Library.t) (c : Trace.call) :
  (forall isbn, Database.get_book (Library.database self) isbn
                = row_of_book <$> Library.books self !! isbn)
  /\ (forall id, Database.get_member (Library.database self) id
                 = row_of_member <$> Library.members self !! id) ->
  (forall isbn, Database.get_book (Library.database (Trace.run_call self c)) isbn
                = row_of_book <$> Library.books (Trace.run_call self c) !! isbn)
  /\ (forall id, Database.get_member (Library.database (Trace.run_call self c)) id
                 = row_of_member <$> Library.members (Trace.run_call self c) !! id).
Proof.
  intros [Hbooks Hmembers].
  unfold Database.get_book, Database.get_member in *.
  destruct (run_call_shape self c)
    as [(b & Hfresh & _ & _ & Hrows & Hmem & Hmrows & Hmmem)
       |[(m & Hfresh & _ & _ & Hmrows & Hmmem & Hrows & Hmem)
        |(Hrows & Hmrows & Hmem & Hmmem)]];
    rewrite Hrows, Hmrows; split.
  - intros isbn. rewrite Hmem, head_filter_snoc, Hbooks.
    destruct (decide (Book.isbn b = isbn)) as [<-|Hne].
    + rewrite lookup_insert_eq, Hfresh. simpl.
      destruct (decide (Book.isbn b = Book.isbn b)); [reflexivity|congruence].
    + rewrite lookup_insert_ne by assumption.
      destruct (Library.books self !! isbn); simpl; [reflexivity|].
      destruct (decide (Book.isbn b = isbn)); [congruence|reflexivity].
  - intros id. rewrite Hmmem. apply Hmembers.
  - intros isbn. rewrite Hmem. apply Hbooks.
  - intros id. rewrite Hmmem, head_filter_snoc, Hmembers.
    destruct (decide (Member.member_id m = id)) as [<-|Hne].
    + rewrite lookup_insert_eq, Hfresh. simpl.
      destruct (decide (Member.member_id m = Member.member_id m));
        [reflexivity|congruence].
    + rewrite lookup_insert_ne by assumption.
      destruct (Library.members self !! id); simpl; [reflexivity|].
      destruct (decide (Member.member_id m = id)); [congruence|reflexivity].
  - intros isbn. rewrite Hbooks.
    destruct Hmem as [->|(i & b & b' & Hb & Hre & ->)]; [reflexivity|].
    destruct (decide (i = isbn)) as [->|Hne].
    + rewrite lookup_insert_eq, Hb. simpl.
      rewrite <- (row_of_book_reopened b), <- Hre. reflexivity.
    + rewrite lookup_insert_ne by assumption. reflexivity.
  - intros id. rewrite Hmembers.
    destruct Hmmem as [->|(i & m & m' & Hm & Hre & _ & ->)]; [reflexivity|].
    destruct (decide (i = id)) as [->|Hne].
    + rewrite lookup_insert_eq, Hm. simpl.
      rewrite <- (row_of_member_reopened m), <- Hre. reflexivity.
    + rewrite lookup_insert_ne by assumption. reflexivity.
Qed.

Lemma run_calls_keep_rows (cs : list Trace.call) : forall self : Library.t,
  (forall isbn, Database.get_book (Library.database self) isbn
                = row_of_book <$> Library.books self !! isbn)
  /\ (forall id, Database.get_member (Library.database self) id
                 = row_of_member <$> Library.members self !! id) ->
  (forall isbn,
     Database.get_book (Library.database (Trace.run_calls self cs)) isbn
     = row_of_book <$> Library.books (Trace.run_calls self cs) !! isbn)
  /\ (forall id,
        Database.get_member (Library.database (Trace.run_calls self cs)) id
        = row_of_member <$> Library.members (Trace.run_calls self cs) !! id).
Proof.
  induction cs as [|c cs IH]; intros self Hself; [assumption|].
  apply (IH (Trace.run_call self c)). apply run_call_keeps_rows. assumption.
Qed.

Lemma fresh_rows :
  (forall isbn, Database.get_book (Library.database Trace.fresh) isbn
                = row_of_book <$> Library.books Trace.fresh !! isbn)
  /\ (forall id, Database.get_member (Library.database Trace.fresh) id
                 = row_of_member <$> Library.members Trace.fresh !! id).
Proof. split; intros k; simpl; rewrite lookup_empty; reflexivity. Qed.

(** X13. In every state reached from a library opened on a new database,
    [get_book] and [get_member] find a row exactly for the keys memory has,
    and the row is the one written when the book or member was added: it
    still says that all copies are available and that the member owes
    nothing, whatever has been borrowed or fined since. *)
Theorem tables_mirror_memory_as_added (cs : list Trace.call)
    (isbn member_id : string) :
  let self := Trace.run_calls Trace.fresh cs in
  Database.get_book (Library.database self) isbn
  = row_of_book <$> Library.books self !! isbn
  /\ Database.get_member (Library.database self) member_id
     = row_of_member <$> Library.members self !! member_id.
Proof.
  intros self.
  destruct (run_calls_keep_rows cs Trace.fresh fresh_rows) as [Hb Hm].
  split; [apply Hb|apply Hm].
Qed.

(** ** Searching *)

















(** ** The statistics *)

Lemma foldr_sum_permutation {A : Type} (f : A -> Z) (l l' : list (string * A)) :
  l ≡ₚ l' ->
  foldr (fun kv acc => f kv.2 + acc) 0 l
  = foldr (fun kv acc => f kv.2 + acc) 0 l'.
Proof.
  induction 1 as [|x l l' _ IH|x y l|l l' l'' _ IH1 _ IH2]; simpl;
    [reflexivity|rewrite IH; reflexivity|lia|congruence].
Qed.

Lemma sum_values_insert_None {A : Type} (f : A -> Z) (d : gmap string A)
    (k : string) (x : A) :
  d !! k = None ->
  Library.sum_values f (<[k := x]> d) = f x + Library.sum_values f d.
Proof.
  intros Hk. unfold Library.sum_values.
  rewrite (foldr_sum_permutation f _ _ (map_to_list_insert d k x Hk)).
  reflexivity.
Qed.

Lemma sum_values_insert_Some {A : Type} (f : A -> Z) (d : gmap string A)
    (k : string) (x x' : A) :
  d !! k = Some x ->
  Library.sum_values f (<[k := x']> d) = Library.sum_values f d - f x + f x'.
Proof.
  intros Hk. rewrite <- insert_delete_eq.
  rewrite sum_values_insert_None by apply lookup_delete_eq.
  unfold Library.sum_values.
  rewrite <- (foldr_sum_permutation f _ _ (map_to_list_delete d k x Hk)).
  simpl. lia.
Qed.

Lemma sum_values_minus {A : Type} (f g : A -> Z) (d : gmap string A) :
  Library.sum_values (fun x => f x - g x) d
  = Library.sum_values f d - Library.sum_values g d.
Proof.
  unfold Library.sum_values.
  induction (map_to_list d) as [|kv l IH]; simpl; lia.
Qed.

Lemma sum_values_nonneg {A : Type} (f : A -> Z) (d : gmap string A) :
  (forall k x, d !! k = Some x -> 0 <= f x) -> 0 <= Library.sum_values f d.
Proof.
  intros Hf. unfold Library.sum_values.
  assert (Hl : forall kv, kv ∈ map_to_list d -> 0 <= f kv.2).
  { intros [k x] Hkv. apply elem_of_map_to_list in Hkv. eauto. }
  induction (map_to_list d) as [|kv l IH]; simpl; [lia|].
  pose proof (Hl kv ltac:(left)).
  assert (0 <= foldr (fun kv acc => f kv.2 + acc) 0 l)
    by (apply IH; intros kv' Hkv'; apply Hl; right; assumption).
  lia.
Qed.

Lemma sum_values_ones {A : Type} (f : A -> Z) (d : gmap string A) :
  (forall k x, d !! k = Some x -> f x = 1) ->
  Library.sum_values f d = Z.of_nat (size d).
Proof.
  intros Hf. rewrite <- length_map_to_list. unfold Library.sum_values.
  assert (Hl : forall kv, kv ∈ map_to_list d -> f kv.2 = 1).
  { intros [k x] Hkv. apply elem_of_map_to_list in Hkv. eauto. }
  induction (map_to_list d) as [|kv l IH]; simpl; [reflexivity|].
  rewrite (Hl kv ltac:(left)).
  rewrite IH by (intros kv' Hkv'; apply Hl; right; assumption). lia.
Qed.

Lemma run_call_keeps_counts (self : Library.t) (c : Trace.call) :
  size (Library.books self)
  = length (Database.books (Library.database self))
  /\ size (Library.members self)
     = length (Database.members (Library.database self))
  /\ (forall id m, Library.members self !! id = Some m ->
                   Member.is_active m = true) ->
  size (Library.books (Trace.run_call self c))
  = length (Database.books (Library.database (Trace.run_call self c)))
  /\ size (Library.members (Trace.run_call self c))
     = length (Database.members (Library.database (Trace.run_call self c)))
  /\ (forall id m, Library.members (Trace.run_call self c) !! id = Some m ->
                   Member.is_active m = true).
Proof.
  intros (Hbooks & Hmembers & Hactive).
  destruct (run_call_shape self c)
    as [(b & Hfresh & _ & _ & Hrows & Hmem & Hmrows & Hmmem)
       |[(m & Hfresh & _ & Hm & Hmrows & Hmmem & Hrows & Hmem)
        |(Hrows & Hmrows & Hmem & Hmmem)]];
    rewrite Hrows, Hmrows.
  - rewrite Hmem, Hmmem, map_size_insert_None, length_app by assumption.
    simpl. repeat split; [lia|assumption|assumption].
  - rewrite Hmem, Hmmem, map_size_insert_None, length_app by assumption.
    simpl. repeat split; [assumption|lia|].
    intros id m' Hlook. destruct (decide (Member.member_id m = id)) as [<-|Hne].
    + rewrite lookup_insert_eq in Hlook. inversion Hlook; subst m'.
      rewrite <- Hm. reflexivity.
    + rewrite lookup_insert_ne in Hlook by assumption. eauto.
  - split; [|split].
    + destruct Hmem as [->|(i & b & b' & Hb & _ & ->)]; [assumption|].
      rewrite map_size_insert_Some by eauto. assumption.
    + destruct Hmmem as [->|(i & m & m' & Hm & _ & _ & ->)]; [assumption|].
      rewrite map_size_insert_Some by eauto. assumption.
    + destruct Hmmem as [->|(i & m & m' & Hm & _ & Hact & ->)]; [assumption|].
      intros id m'' Hlook. destruct (decide (i = id)) as [<-|Hne].
      * rewrite lookup_insert_eq in Hlook. inversion Hlook; subst m''.
        rewrite Hact. eauto.
      * rewrite lookup_insert_ne in Hlook by assumption. eauto.
Qed.

Lemma run_calls_keep_counts (cs : list Trace.call) : forall self : Library.t,
  size (Library.books self)
  = length (Database.books (Library.database self))
  /\ size (Library.members self)
     = length (Database.members (Library.database self))
  /\ (forall id m, Library.members self !! id = Some m ->
                   Member.is_active m = true) ->
  size (Library.books (Trace.run_calls self cs))
  = length (Database.books (Library.database (Trace.run_calls self cs)))
  /\ size (Library.members (Trace.run_calls self cs))
     = length (Database.members (Library.database (Trace.run_calls self cs)))
  /\ (forall id m, Library.members (Trace.run_calls self cs) !! id = Some m ->
                   Member.is_active m = true).
Proof.
  induction cs as [|c cs IH]; intros self Hself; [assumption|].
  apply (IH (Trace.run_call self c)). apply run_call_keeps_counts. assumption.
Qed.

Lemma run_calls_keep_within_total (cs : list Trace.call) :
  forall self : Library.t,
  books_within_total (Library.books self) ->
  books_within_total (Library.books (Trace.run_calls self cs)).
Proof.
  induction cs as [|c cs IH]; intros self Hself; [assumption|].
  apply (IH (Trace.run_call self c)). apply run_call_keeps_within_total.
  assumption.
Qed.

Lemma fresh_counts :
  size (Library.books Trace.fresh)
  = length (Database.books (Library.database Trace.fresh))
  /\ size (Library.members Trace.fresh)
     = length (Database.members (Library.database Trace.fresh))
  /\ (forall id m, Library.members Trace.fresh !! id = Some m ->
                   Member.is_active m = true).
Proof.
  split; [reflexivity|]. split; [reflexivity|].
  intros id m Hm. simpl in Hm. rewrite lookup_empty in Hm. discriminate.
Qed.

(** X17. In every state reached from a library opened on a new database,
    the statistics count as many titles and members as the tables have
    rows, every member counts as active (no call deactivates one), the
    available books are the sum of the [available_copies], and the borrowed
    books are not negative. *)
Theorem reachable_library_stats (cs : list Trace.call) :
  let self := Trace.run_calls Trace.fresh cs in
  let st := Library.get_library_stats self in
  Library.unique_titles st
  = Z.of_nat (length (Database.books (Library.database self)))
  /\ Library.total_members st
     = Z.of_nat (length (Database.members (Library.database self)))
  /\ Library.active_members st = Library.total_members st
  /\ Library.available_books st
     = Library.sum_values Book.available_copies (Library.books self)
  /\ Library.borrowed_books st + Library.available_books st
     = Library.total_books_inventory st
  /\ 0 <= Library.borrowed_books st.
Proof.
  intros self st.
  destruct (run_calls_keep_counts cs Trace.fresh fresh_counts)
    as (Hbooks & Hmembers & Hactive).
  fold self in Hbooks, Hmembers, Hactive.
  assert (Hwithin : books_within_total (Library.books self)).
  { apply run_calls_keep_within_total. intros isbn b Hb. simpl in Hb.
    rewrite lookup_empty in Hb. discriminate. }
  subst st. unfold Library.get_library_stats. simpl.
  rewrite Hbooks, Hmembers. split; [reflexivity|]. split; [reflexivity|].
  split; [|split; [|split]].
  - rewrite <- Hmembers. apply sum_values_ones.
    intros id m Hm. rewrite (Hactive id m Hm). reflexivity.
  - rewrite sum_values_minus. lia.
  - lia.
  - apply sum_values_nonneg. intros isbn b Hb. pose proof (Hwithin isbn b Hb).
    lia.
Qed.

(** X18. A [borrow_book] that succeeds moves one copy from the available to
    the borrowed books of the statistics and changes nothing else in them. *)
Theorem borrow_book_moves_one_copy_in_stats
    (self : Library.t) (member_id isbn : string) (now : datetime) (ts : Z)
    (io_ok : bool) :
  fst (fst (Library.borrow_book self member_id isbn now ts io_ok)) = true ->
  let st := Library.get_library_stats self in
  let st' := Library.get_library_stats
               (snd (Library.borrow_book self member_id isbn now ts io_ok)) in
  Library.borrowed_books st' = Library.borrowed_books st + 1
  /\ Library.available_books st' = Library.available_books st - 1
  /\ Library.total_books_inventory st' = Library.total_books_inventory st
  /\ Library.unique_titles st' = Library.unique_titles st
  /\ Library.total_members st' = Library.total_members st
  /\ Library.active_members st' = Library.active_members st.
Proof.
  unfold Library.borrow_book.
  destruct (Library.members self !! member_id) as [member|] eqn:Hm;
    [|discriminate].
  destruct (Library.books self !! isbn) as [book|] eqn:Hb; [|discriminate].
  destruct (Member.is_active member) eqn:Hact; simpl; [|discriminate].
  unfold Book.borrow_copy.
  destruct (0 <? Book.available_copies book); simpl; [|discriminate].
  destruct io_ok; simpl; [|discriminate]. intros _.
  unfold Library.get_library_stats. simpl.
  rewrite !(sum_values_insert_Some _ _ _ _ _ Hb).
  rewrite (sum_values_insert_Some _ _ _ _ _ Hm).
  rewrite !map_size_insert_Some by eauto. simpl.
  assert (Hsame : Member.is_active (Member.add_borrowed_book member isbn)
                  = Member.is_active member).
  { unfold Member.add_borrowed_book.
    destruct (decide (isbn ∈ Member.borrowed_books member)); reflexivity. }
  rewrite Hsame. repeat split; lia.
Qed.

Lemma borrow_book_moves_one_copy_in_stats_witness :
  let st := Library.get_library_stats demo_on_loan in
  let st' := Library.get_library_stats
               (snd (Library.borrow_book demo_on_loan "M1" demo_isbn
                       (day 1) 86400 true)) in
  Library.borrowed_books st' = Library.borrowed_books st + 1
  /\ Library.available_books st' = Library.available_books st - 1
  /\ Library.total_books_inventory st' = Library.total_books_inventory st
  /\ Library.unique_titles st' = Library.unique_titles st
  /\ Library.total_members st' = Library.total_members st
  /\ Library.active_members st' = Library.active_members st.
Proof.
  apply (borrow_book_moves_one_copy_in_stats demo_on_loan "M1" demo_isbn
           (day 1) 86400 true).
  vm_compute. reflexivity.
Defined.

(** X19. A [return_book] that gets past its checks, whether its write
    succeeds or not, moves one copy from the borrowed to the available books
    of the statistics when the book had a copy out, leaves them as they are
    when all its copies were in, and changes no other statistic. *)
Theorem return_book_moves_one_copy_in_stats
    (self : Library.t) (member_id isbn : string) (member : Member.t)
    (book : Book.t) (now_test now_diff : datetime) (ts : Z) (io_ok : bool) :
  Library.members self !! member_id = Some member ->
  Library.books self !! isbn = Some book ->
  isbn ∈ Member.borrowed_books member ->
  let st := Library.get_library_stats self in
  let st' := Library.get_library_stats
               (snd (Library.return_book self member_id isbn now_test
                       now_diff ts io_ok)) in
  let back := if Book.available_copies book <? Book.total_copies book
              then 1 else 0 in
  Library.borrowed_books st' = Library.borrowed_books st - back
  /\ Library.available_books st' = Library.available_books st + back
  /\ Library.total_books_inventory st' = Library.total_books_inventory st
  /\ Library.unique_titles st' = Library.unique_titles st
  /\ Library.total_members st' = Library.total_members st
  /\ Library.active_members st' = Library.active_members st.
Proof.
  intros Hm Hb Hheld.
  rewrite (return_book_held self member_id isbn member book now_test
             now_diff ts io_ok Hm Hb Hheld).
  unfold Library.get_library_stats. simpl.
  rewrite !(sum_values_insert_Some _ _ _ _ _ Hb).
  rewrite (sum_values_insert_Some _ _ _ _ _ Hm).
  rewrite !map_size_insert_Some by eauto.
  assert (Hact : Member.is_active
                   (returned_member member isbn
                      (Library._calculate_fine self member_id isbn
                         now_test now_diff))
                 = Member.is_active member).
  { unfold returned_member. destruct (0 <? _)%float; reflexivity. }
  rewrite Hact. unfold returned_book, Book.return_copy.
  destruct (Book.available_copies book <? Book.total_copies book); simpl;
    repeat split; lia.
Qed.

Lemma return_book_moves_one_copy_in_stats_witness :
  let st := Library.get_library_stats demo_on_loan in
  let st' := Library.get_library_stats
               (snd (Library.return_book demo_on_loan "M1" demo_isbn
                       (day 1) (day 1) 86400 false)) in
  let back := if Book.available_copies (demo_book 1)
                 <? Book.total_copies (demo_book 1)
              then 1 else 0 in
  Library.borrowed_books st' = Library.borrowed_books st - back
  /\ Library.available_books st' = Library.available_books st + back
  /\ Library.total_books_inventory st' = Library.total_books_inventory st
  /\ Library.unique_titles st' = Library.unique_titles st
  /\ Library.total_members st' = Library.total_members st
  /\ Library.active_members st' = Library.active_members st.
Proof.
  apply (return_book_moves_one_copy_in_stats demo_on_loan "M1" demo_isbn
           (demo_member [demo_isbn] 0%float) (demo_book 1)
           (day 1) (day 1) 86400 false).
  - vm_compute; reflexivity.
  - vm_compute; reflexivity.
  - apply list_elem_of_here.
Defined.

(** ** Books that cannot be borrowed, and an answer that never comes *)

(** X20. In every state reached from a library opened on a new database,
    [borrow_book] never answers "Member is not active", since no call
    deactivates a member; and a book added with [total_copies <= 0], which
    [add_book] accepts, is never lent: for a member the library knows the
    answer is "Book not available" and nothing changes. *)
Theorem reachable_borrow_book_refusals
    (cs : list Trace.call) (member_id isbn : string) (now : datetime)
    (ts : Z) (io_ok : bool) :
  let self := Trace.run_calls Trace.fresh cs in
  let '(res, self') := Library.borrow_book self member_id isbn now ts io_ok in
  snd res <> Text "Member is not active"
  /\ (forall b : Book.t,
        Library.books self !! isbn = Some b ->
        Book.total_copies b <= 0 ->
        is_Some (Library.members self !! member_id) ->
        res = (false, Text "Book not available") /\ self' = self).
Proof.
  intros self.
  destruct (run_calls_keep_counts cs Trace.fresh fresh_counts)
    as (_ & _ & Hactive).
  fold self in Hactive.
  assert (Hwithin : books_within_total (Library.books self)).
  { apply run_calls_keep_within_total. intros i b Hb. simpl in Hb.
    rewrite lookup_empty in Hb. discriminate. }
  unfold Library.borrow_book.
  destruct (Library.members self !! member_id) as [member|] eqn:Hm.
  2:{ split; [discriminate|]. intros b _ _ [m Hsome]. discriminate. }
  destruct (Library.books self !! isbn) as [book|] eqn:Hb.
  2:{ split; [discriminate|]. intros b Hsome. discriminate. }
  rewrite (Hactive member_id member Hm). simpl.
  unfold Book.borrow_copy.
  destruct (0 <? Book.available_copies book) eqn:Havail; simpl.
  - apply Z.ltb_lt in Havail. pose proof (Hwithin isbn book Hb) as Hle.
    destruct io_ok; simpl; (split; [discriminate|]);
      intros b [= <-] Hnone _; lia.
  - split; [discriminate|]. auto.
Qed.

(** ** Memory and the ledger under the discipline *)

Lemma remove_first_NoDup_absent (x : string) (l : list string) :
  NoDup l -> x ∉ remove_first x l.
Proof.
  induction l as [|y l IH]; intros Hnd; simpl; [apply not_elem_of_nil|].
  apply NoDup_cons in Hnd as [Hy Hnd].
  destruct (decide (x = y)) as [->|Hne]; [assumption|].
  apply not_elem_of_cons. split; [assumption|auto].
Qed.

Lemma elem_of_remove_first (x y : string) (l : list string) :
  y ∈ remove_first x l -> y ∈ l.
Proof.
  induction l as [|z l IH]; simpl; [auto|].
  destruct (decide (x = z)); [right; assumption|].
  intros Hy. apply elem_of_cons in Hy as [->|Hy]; [left|right; auto].
Qed.

Lemma run_call_keeps_held_open (self : Library.t) (c : Trace.call) :
  Trace.admissible self c ->
  borrowed_books_NoDup (Library.members self) ->
  held_implies_open self ->
  held_implies_open (Trace.run_call self c).
Proof.
  intros Hadm Hnd Hopen.
  destruct c as [isbn title author publisher year copies io_ok
                |member_id name email phone address io_ok
                |member_id isbn now ts io_ok
                |member_id isbn now_test now_diff ts io_ok]; simpl in *.
  - unfold Library.add_book, Database.add_book.
    destruct (decide (is_Some (Library.books self !! isbn))); [assumption|].
    destruct io_ok; simpl; [|assumption].
    destruct (decide (isbn ∈ map Database.b_isbn
                                 (Database.books (Library.database self))));
      exact Hopen.
  - unfold Library.add_member, Database.add_member.
    destruct (decide (is_Some (Library.members self !! member_id)));
      [assumption|].
    destruct io_ok; simpl; [|assumption].
    destruct (decide (member_id ∈ map Database.m_member_id
                                      (Database.members (Library.database self))));
      [exact Hopen|].
    intros id i (m & Hm & Hin). simpl in Hm.
    destruct (decide (member_id = id)) as [->|Hne].
    + rewrite lookup_insert_eq in Hm. inversion Hm; subst m. inversion Hin.
    + rewrite lookup_insert_ne in Hm by assumption.
      apply (Hopen id i). exists m. auto.
  - destruct (borrow_book_not_held_effect self member_id isbn now ts io_ok Hadm)
      as [[Hdb Hms]|(member & Hm & Habsent & Hdb & Hms)].
    + intros id i (m & Hlook & Hin). rewrite Hdb. apply Hopen.
      exists m. rewrite <- Hms. auto.
    + intros id i (m & Hlook & Hin). rewrite Hdb.
      destruct (decide (id = member_id /\ i = isbn)) as [[-> ->]|Hne].
      * rewrite open_records_after_borrowing.
        intros Hnil. apply app_eq_nil in Hnil as [_ Hnil]. discriminate.
      * rewrite open_records_after_borrowing_other by assumption.
        apply Hopen. rewrite Hms in Hlook.
        destruct (decide (member_id = id)) as [<-|Hid].
        -- rewrite lookup_insert_eq in Hlook. inversion Hlook; subst m.
           simpl in Hin. exists member. split; [assumption|].
           apply elem_of_app in Hin as [Hin|Hin]; [assumption|].
           apply list_elem_of_singleton in Hin. subst i.
           exfalso. apply Hne. auto.
        -- rewrite lookup_insert_ne in Hlook by assumption.
           exists m. auto.
  - subst io_ok.
    destruct (return_book_effect self member_id isbn now_test now_diff ts)
      as [Hsame|(member & fine & Hm & Hdb & Hms)].
    + rewrite Hsame. assumption.
    + intros id i (m & Hlook & Hin). rewrite Hdb, open_records_after_return.
      rewrite Hms in Hlook.
      destruct (decide (member_id = id)) as [<-|Hid].
      * rewrite lookup_insert_eq in Hlook. inversion Hlook; subst m.
        rewrite returned_member_borrowed_books in Hin.
        destruct (decide (member_id = member_id /\ i = isbn)) as [[_ ->]|Hne].
        -- exfalso. revert Hin. apply remove_first_NoDup_absent.
           apply (Hnd member_id member Hm).
        -- apply Hopen. exists member. split; [assumption|].
           eapply elem_of_remove_first. eassumption.
      * rewrite lookup_insert_ne in Hlook by assumption.
        destruct (decide (id = member_id /\ i = isbn)) as [[-> _]|Hne];
          [congruence|].
        apply Hopen. exists m. auto.
Qed.

(** What holds along a disciplined run: one open record per pair, and the
    lists of memory agreeing with the open records. *)
Lemma disciplined_run_agrees (cs : list Trace.call) : forall self : Library.t,
  Trace.disciplined self cs ->
  open_implies_held self /\ at_most_one_open (Library.database self)
  /\ held_implies_open self /\ borrowed_books_NoDup (Library.members self) ->
  open_implies_held (Trace.run_calls self cs)
  /\ at_most_one_open (Library.database (Trace.run_calls self cs))
  /\ held_implies_open (Trace.run_calls self cs)
  /\ borrowed_books_NoDup (Library.members (Trace.run_calls self cs)).
Proof.
  induction cs as [|c cs IH]; intros self Hd Hinv; [exact Hinv|].
  destruct Hd as [Hadm Hd]. destruct Hinv as (H1 & H2 & H3 & H4).
  apply (IH (Trace.run_call self c) Hd).
  destruct (run_call_keeps_one_open self c Hadm (conj H1 H2)) as [H1' H2'].
  repeat split; try assumption.
  - apply run_call_keeps_held_open; assumption.
  - apply run_call_keeps_NoDup. assumption.
Qed.

Lemma fresh_agrees :
  open_implies_held Trace.fresh
  /\ at_most_one_open (Library.database Trace.fresh)
  /\ held_implies_open Trace.fresh
  /\ borrowed_books_NoDup (Library.members Trace.fresh).
Proof.
  repeat split.
  - intros id i r Hr. inversion Hr.
  - intros id i. simpl. lia.
  - intros id i (m & Hm & _). simpl in Hm. rewrite lookup_empty in Hm.
    discriminate.
  - intros id m Hm. simpl in Hm. rewrite lookup_empty in Hm. discriminate.
Qed.

Lemma demo_calls_keep_discipline :
  Trace.disciplined Trace.fresh demo_calls_disciplined.
Proof.
  unfold demo_calls_disciplined.
  cbn [Trace.disciplined Trace.admissible].
  repeat match goal with |- _ /\ _ => split end; try exact I; try reflexivity.
  - intros (m & Hm & Hin). vm_compute in Hm. inversion Hm; subst m.
    inversion Hin.
  - intros (m & Hm & Hin). vm_compute in Hm. inversion Hm; subst m.
    inversion Hin.
Qed.

(** X21. Along a run that keeps the discipline ([borrow_book] only for a
    title the member does not hold, no failed write of [return_book]), the
    lists of memory and the ledger agree: a member holds a title exactly
    when the pair has an open borrowing record, and then it has one. *)
Theorem disciplined_memory_agrees_with_ledger
    (cs : list Trace.call) (member_id isbn : string) :
  Trace.disciplined Trace.fresh cs ->
  let self := Trace.run_calls Trace.fresh cs in
  Trace.holds self member_id isbn
  <-> exists r : Database.borrowing_record,
        open_records (Library.database self) member_id isbn = [r].
Proof.
  intros Hd self.
  destruct (disciplined_run_agrees cs Trace.fresh Hd fresh_agrees)
    as (H1 & H2 & H3 & _).
  fold self in H1, H2, H3. split.
  - intros Hheld. pose proof (H3 _ _ Hheld) as Hne.
    pose proof (H2 member_id isbn) as Hle.
    destruct (open_records (Library.database self) member_id isbn)
      as [|r [|r' l]]; [congruence|eauto|simpl in Hle; lia].
  - intros [r Hr]. apply (H1 member_id isbn r). rewrite Hr. left.
Qed.

Lemma disciplined_memory_agrees_with_ledger_witness :
  Trace.disciplined Trace.fresh demo_calls_disciplined
  /\ (Trace.holds (Trace.run_calls Trace.fresh demo_calls_disciplined)
                  "M1" demo_isbn
      <-> exists r : Database.borrowing_record,
            open_records
              (Library.database
                 (Trace.run_calls Trace.fresh demo_calls_disciplined))
              "M1" demo_isbn
            = [r]).
Proof.
  pose proof demo_calls_keep_discipline as Hd.
  split; [exact Hd|].
  apply (disciplined_memory_agrees_with_ledger demo_calls_disciplined
           "M1" demo_isbn Hd).
Defined.

Lemma open_records_of_isbn_after_borrowing (db : Database.t)
    (member_id isbn isbn' : string) (due_date : datetime) (ts : Z) :
  length (open_records_of_isbn
            (snd (Database.record_borrowing db member_id isbn due_date ts true))
            isbn')
  = (length (open_records_of_isbn db isbn')
     + if decide (isbn' = isbn) then 1 else 0)%nat.
Proof.
  unfold open_records_of_isbn. simpl. rewrite filter_app, length_app.
  f_equal. rewrite filter_cons, filter_nil. simpl.
  destruct (decide (isbn' = isbn)) as [->|Hne].
  - destruct (decide _) as [|Hn]; [reflexivity|]. exfalso. apply Hn. auto.
  - destruct (decide _) as [[Heq _]|]; [congruence|reflexivity].
Qed.

Lemma open_records_of_isbn_after_return (db : Database.t)
    (member_id isbn isbn' : string) (fine : float) (ts : Z) :
  (length (open_records_of_isbn
             (snd (Database.record_return db member_id isbn fine ts true))
             isbn')
   + if decide (isbn' = isbn)
     then length (open_records db member_id isbn) else 0)%nat
  = length (open_records_of_isbn db isbn').
Proof.
  unfold open_records_of_isbn, open_records. simpl.
  induction (Database.borrowing_records db) as [|r l IH]; cbn [map].
  - rewrite !filter_nil. simpl. destruct (decide _); reflexivity.
  - rewrite !(filter_cons _ _ l), (filter_cons _ _ (map _ l)).
    destruct (Database.is_open_for member_id isbn r) eqn:Hopen.
    + pose proof Hopen as Hr. apply is_open_for_true in Hr as (Hm & Hi & Hret).
      destruct (decide (Database.isbn (Database.set_returned ts fine r) = isbn'
                        /\ Database.return_date
                             (Database.set_returned ts fine r) = None))
        as [[_ Hn]|_]; [discriminate|].
      destruct (decide (true = true)) as [_|Hn]; [|congruence].
      destruct (decide (isbn' = isbn)) as [->|Hne].
      * destruct (decide (Database.isbn r = isbn
                          /\ Database.return_date r = None)) as [_|Hn];
          [|exfalso; apply Hn; auto].
        simpl in *. lia.
      * destruct (decide (Database.isbn r = isbn'
                          /\ Database.return_date r = None)) as [[Heq _]|_];
          [congruence|].
        simpl in *. lia.
    + destruct (decide (false = true)) as [Hn|_]; [discriminate|].
      destruct (decide (Database.isbn r = isbn'
                        /\ Database.return_date r = None)); simpl in *; lia.
Qed.

Lemma run_call_keeps_copies (self : Library.t) (c : Trace.call) :
  Trace.admissible self c ->
  at_most_one_open (Library.database self) ->
  held_implies_open self ->
  copies_match_ledger self ->
  copies_match_ledger (Trace.run_call self c).
Proof.
  intros Hadm Hone Hopen [Hcopies Hunknown].
  assert (Hins : forall (db' : Database.t) (isbn : string) (b b' : Book.t),
            Library.books self !! isbn = Some b ->
            Book.total_copies b' - Book.available_copies b'
            = Z.of_nat (length (open_records_of_isbn db' isbn)) ->
            (forall isbn', isbn' <> isbn ->
               length (open_records_of_isbn db' isbn')
               = length (open_records_of_isbn (Library.database self) isbn')) ->
            forall members,
            copies_match_ledger
              (Library.mk db' (<[isbn := b']> (Library.books self)) members)).
  { intros db' isbn b b' Hb Hb' Hother members. split; simpl.
    - intros isbn' b'' Hlook.
      destruct (decide (isbn = isbn')) as [<-|Hne].
      + rewrite lookup_insert_eq in Hlook. inversion Hlook; subst b''. exact Hb'.
      + rewrite lookup_insert_ne in Hlook by assumption.
        rewrite Hother by congruence. auto.
    - intros isbn' Hlook.
      destruct (decide (isbn = isbn')) as [<-|Hne].
      + rewrite lookup_insert_eq in Hlook. discriminate.
      + rewrite lookup_insert_ne in Hlook by assumption.
        apply length_zero_iff_nil. rewrite Hother by congruence.
        rewrite (Hunknown isbn' Hlook). reflexivity. }
  destruct c as [isbn title author publisher year copies io_ok
                |member_id name email phone address io_ok
                |member_id isbn now ts io_ok
                |member_id isbn now_test now_diff ts io_ok]; simpl in *.
  - unfold Library.add_book, Database.add_book.
    destruct (decide (is_Some (Library.books self !! isbn))) as [|Hfresh];
      [split; assumption|].
    destruct io_ok; simpl; [|split; assumption].
    destruct (decide (isbn ∈ map Database.b_isbn
                                 (Database.books (Library.database self))));
      [split; assumption|].
    assert (Hnone : Library.books self !! isbn = None)
      by (destruct (Library.books self !! isbn); [exfalso; eauto|reflexivity]).
    split; simpl.
    + intros isbn' b Hlook. unfold open_records_of_isbn. simpl.
      destruct (decide (isbn = isbn')) as [<-|Hne].
      * rewrite lookup_insert_eq in Hlook. inversion Hlook; subst b. simpl.
        fold (open_records_of_isbn (Library.database self) isbn).
        rewrite (Hunknown isbn Hnone). simpl. lia.
      * rewrite lookup_insert_ne in Hlook by assumption.
        apply (Hcopies isbn' b Hlook).
    + intros isbn' Hlook.
      destruct (decide (isbn = isbn')) as [<-|Hne].
      * rewrite lookup_insert_eq in Hlook. discriminate.
      * rewrite lookup_insert_ne in Hlook by assumption.
        apply (Hunknown isbn' Hlook).
  - unfold Library.add_member, Database.add_member.
    destruct (decide (is_Some (Library.members self !! member_id)));
      [split; assumption|].
    destruct io_ok; simpl; [|split; assumption].
    destruct (decide (member_id ∈ map Database.m_member_id
                                      (Database.members (Library.database self))));
      split; assumption.
  - unfold Library.borrow_book.
    destruct (Library.members self !! member_id) as [member|];
      [|split; assumption].
    destruct (Library.books self !! isbn) as [book|] eqn:Hb;
      [|split; assumption].
    destruct (Member.is_active member); simpl; [|split; assumption].
    pose proof (Hcopies isbn book Hb) as Hbook.
    unfold Book.borrow_copy.
    destruct (0 <? Book.available_copies book) eqn:Havail; simpl;
      [|split; assumption].
    destruct io_ok; simpl.
    + apply (Hins _ isbn book); [assumption| |].
      * simpl.
        pose proof (open_records_of_isbn_after_borrowing
                      (Library.database self) member_id isbn isbn
                      (now + timedelta_of_days Library.BORROWING_PERIOD_DAYS)
                      ts) as Hlen.
        simpl in Hlen. rewrite Hlen.
        destruct (decide (isbn = isbn)); [lia|congruence].
      * intros isbn' Hne.
        pose proof (open_records_of_isbn_after_borrowing
                      (Library.database self) member_id isbn isbn'
                      (now + timedelta_of_days Library.BORROWING_PERIOD_DAYS)
                      ts) as Hlen.
        simpl in Hlen. rewrite Hlen.
        destruct (decide (isbn' = isbn)); [congruence|lia].
    + apply (Hins _ isbn book); [assumption| |reflexivity].
      unfold Book.return_copy. simpl.
      replace (Book.available_copies book - 1 <? Book.total_copies book)
        with true by (symmetry; apply Z.ltb_lt; lia).
      simpl. lia.
  - subst io_ok. unfold Library.return_book.
    destruct (Library.members self !! member_id) as [member|] eqn:Hm;
      [|split; assumption].
    destruct (Library.books self !! isbn) as [book|] eqn:Hb;
      [|split; assumption].
    unfold Member.remove_borrowed_book.
    destruct (decide (isbn ∈ Member.borrowed_books member)) as [Hheld|];
      simpl; [|split; assumption].
    pose proof (Hcopies isbn book Hb) as Hbook.
    assert (Hpair : length (open_records (Library.database self) member_id isbn)
                    = 1%nat).
    { pose proof (Hone member_id isbn) as Hle.
      assert (Hne : open_records (Library.database self) member_id isbn <> [])
        by (apply Hopen; exists member; auto).
      destruct (open_records (Library.database self) member_id isbn);
        [congruence|simpl in *; lia]. }
    set (fine := Library._calculate_fine self member_id isbn now_test now_diff).
    pose proof (open_records_of_isbn_after_return (Library.database self)
                  member_id isbn isbn fine ts) as Hsame.
    simpl in Hsame. destruct (decide (isbn = isbn)) as [_|]; [|congruence].
    rewrite Hpair in Hsame.
    apply (Hins _ isbn book); [assumption| |].
    + unfold Book.return_copy.
      replace (Book.available_copies book <? Book.total_copies book)
        with true by (symmetry; apply Z.ltb_lt; lia).
      simpl. lia.
    + intros isbn' Hne.
      pose proof (open_records_of_isbn_after_return (Library.database self)
                    member_id isbn isbn' fine ts) as Hother.
      simpl in Hother. destruct (decide (isbn' = isbn)); [congruence|lia].
Qed.

(** X22. Along a run that keeps the discipline, the counters and the ledger
    agree: for every book, the copies that are out,
    [total_copies - available_copies], are as many as the open borrowing
    records of its title. *)
Theorem disciplined_copies_match_ledger
    (cs : list Trace.call) (isbn : string) (b : Book.t) :
  Trace.disciplined Trace.fresh cs ->
  let self := Trace.run_calls Trace.fresh cs in
  Library.books self !! isbn = Some b ->
  Book.borrowed (Book.get_availability b)
  = Z.of_nat (length (open_records_of_isbn (Library.database self) isbn))
  /\ Book.available_copies b
     = Book.total_copies b
       - Z.of_nat (length (open_records_of_isbn (Library.database self) isbn)).
Proof.
  intros Hd self Hb.
  assert (Hall : forall cs self,
            Trace.disciplined self cs ->
            (open_implies_held self /\ at_most_one_open (Library.database self)
             /\ held_implies_open self
             /\ borrowed_books_NoDup (Library.members self))
            /\ copies_match_ledger self ->
            copies_match_ledger (Trace.run_calls self cs)).
  { clear. induction cs as [|c cs IH]; intros self Hd [Hinv Hcopies];
      [exact Hcopies|].
    destruct Hd as [Hadm Hd]. apply (IH (Trace.run_call self c) Hd).
    split.
    - apply (disciplined_run_agrees [c] self); [split; [assumption|exact I]|].
      assumption.
    - destruct Hinv as (_ & H2 & H3 & _).
      apply run_call_keeps_copies; assumption. }
  destruct (Hall cs Trace.fresh Hd) as [Hcopies _].
  { split; [exact fresh_agrees|]. split.
    - intros i b' Hb'. simpl in Hb'. rewrite lookup_empty in Hb'. discriminate.
    - intros i _. reflexivity. }
  fold self in Hcopies. pose proof (Hcopies isbn b Hb) as Hbook.
  unfold Book.get_availability. simpl. split; [exact Hbook|lia].
Qed.

Lemma disciplined_copies_match_ledger_witness :
  let self := Trace.run_calls Trace.fresh demo_calls_disciplined in
  Trace.disciplined Trace.fresh demo_calls_disciplined
  /\ Library.books self !! demo_isbn = Some (demo_book 1)
  /\ Book.borrowed (Book.get_availability (demo_book 1))
     = Z.of_nat (length (open_records_of_isbn (Library.database self)
                                              demo_isbn))
  /\ Book.available_copies (demo_book 1)
     = Book.total_copies (demo_book 1)
       - Z.of_nat (length (open_records_of_isbn (Library.database self)
                                                demo_isbn)).
Proof.
  intros self.
  pose proof demo_calls_keep_discipline as Hd.
  assert (Hb : Library.books self !! demo_isbn = Some (demo_book 1))
    by (vm_compute; reflexivity).
  split; [exact Hd|]. split; [exact Hb|].
  apply (disciplined_copies_match_ledger demo_calls_disciplined demo_isbn
           (demo_book 1) Hd Hb).
Defined.

(** ** The borrowing records over time *)

Lemma run_call_records (self : Library.t) (c : Trace.call) :
  let db := Library.database self in
  let db' := Library.database (Trace.run_call self c) in
  (Database.borrowing_records db' = Database.borrowing_records db
   /\ Database.sqlite_sequence db' = Database.sqlite_sequence db)
  \/ (exists (member_id isbn : string) (ts : Z) (due_date : datetime),
        Database.borrowing_records db'
        = (Database.borrowing_records db
           ++ [Database.mk_borrowing_record (Database.sqlite_sequence db + 1)
                 member_id isbn ts due_date None 0%float])%list
        /\ Database.sqlite_sequence db' = Database.sqlite_sequence db + 1)
  \/ (exists (member_id isbn : string) (ts : Z) (fine : float),
        Database.borrowing_records db'
        = map (fun r => if Database.is_open_for member_id isbn r
                        then Database.set_returned ts fine r else r)
              (Database.borrowing_records db)
        /\ Database.sqlite_sequence db' = Database.sqlite_sequence db).
Proof.
  destruct c as [isbn title author publisher year copies io_ok
                |member_id name email phone address io_ok
                |member_id isbn now ts io_ok
                |member_id isbn now_test now_diff ts io_ok]; simpl.
  - left. unfold Library.add_book, Database.add_book.
    destruct (decide (is_Some (Library.books self !! isbn))); [auto|].
    destruct io_ok; simpl; [|auto].
    destruct (decide (isbn ∈ map Database.b_isbn
                                 (Database.books (Library.database self))));
      auto.
  - left. unfold Library.add_member, Database.add_member.
    destruct (decide (is_Some (Library.members self !! member_id))); [auto|].
    destruct io_ok; simpl; [|auto].
    destruct (decide (member_id ∈ map Database.m_member_id
                                      (Database.members (Library.database self))));
      auto.
  - unfold Library.borrow_book.
    destruct (Library.members self !! member_id) as [member|]; [|left; auto].
    destruct (Library.books self !! isbn) as [book|]; [|left; auto].
    destruct (Member.is_active member); simpl; [|left; auto].
    unfold Book.borrow_copy.
    destruct (0 <? Book.available_copies book); simpl; [|left; auto].
    destruct io_ok; simpl; [|left; auto].
    right. left. do 4 eexists. split; reflexivity.
  - unfold Library.return_book.
    destruct (Library.members self !! member_id) as [member|]; [|left; auto].
    destruct (Library.books self !! isbn) as [book|]; [|left; auto].
    unfold Member.remove_borrowed_book.
    destruct (decide (isbn ∈ Member.borrowed_books member)); simpl;
      [|left; auto].
    destruct io_ok; simpl; [|left; auto].
    right. right. do 4 eexists. split; reflexivity.
Qed.

Lemma run_call_keeps_record_slots (self : Library.t) (c : Trace.call)
    (k : nat) (r : Database.borrowing_record) :
  Database.borrowing_records (Library.database self) !! k = Some r ->
  exists r' : Database.borrowing_record,
    Database.borrowing_records (Library.database (Trace.run_call self c)) !! k
    = Some r'
    /\ Database.record_id r' = Database.record_id r
    /\ Database.member_id r' = Database.member_id r
    /\ Database.isbn r' = Database.isbn r
    /\ Database.borrow_date r' = Database.borrow_date r
    /\ Database.due_date r' = Database.due_date r
    /\ (Database.return_date r <> None -> r' = r).
Proof.
  intros Hk.
  destruct (run_call_records self c)
    as [[-> _]|[(m & i & ts & due & -> & _)|(m & i & ts & fine & -> & _)]].
  - exists r. repeat split; auto.
  - exists r. rewrite lookup_app_l by (eapply lookup_lt_Some; eassumption).
    repeat split; auto.
  - rewrite list_lookup_fmap, Hk. simpl.
    destruct (Database.is_open_for m i r) eqn:Hopen.
    + eexists. split; [reflexivity|]. simpl. repeat split.
      intros Hclosed. apply is_open_for_true in Hopen as (_ & _ & Hnone).
      contradiction.
    + exists r. repeat split; auto.
Qed.

(** X23. No call deletes, moves or re-attributes a borrowing record, and a
    closed record never changes again: the record found at a position stays
    there through every later call, with its id, member, isbn, borrow date
    and due date, and, once [return_date] is set, with all its columns. *)
Theorem borrowing_records_are_kept
    (cs : list Trace.call) (self : Library.t) (k : nat)
    (r : Database.borrowing_record) :
  Database.borrowing_records (Library.database self) !! k = Some r ->
  exists r' : Database.borrowing_record,
    Database.borrowing_records (Library.database (Trace.run_calls self cs)) !! k
    = Some r'
    /\ Database.record_id r' = Database.record_id r
    /\ Database.member_id r' = Database.member_id r
    /\ Database.isbn r' = Database.isbn r
    /\ Database.borrow_date r' = Database.borrow_date r
    /\ Database.due_date r' = Database.due_date r
    /\ (Database.return_date r <> None -> r' = r).
Proof.
  revert self r. induction cs as [|c cs IH]; intros self r Hk.
  - exists r. repeat split; auto.
  - destruct (run_call_keeps_record_slots self c k r Hk)
      as (r1 & Hk1 & Hid & Hm & Hi & Hb & Hd & Hclosed).
    destruct (IH (Trace.run_call self c) r1 Hk1)
      as (r2 & Hk2 & Hid2 & Hm2 & Hi2 & Hb2 & Hd2 & Hclosed2).
    exists r2. simpl. split; [exact Hk2|].
    repeat split; try congruence.
    intros Hret. rewrite <- (Hclosed Hret). apply Hclosed2.
    rewrite (Hclosed Hret). assumption.
Qed.

Lemma borrowing_records_are_kept_witness :
  let self := demo_on_loan_twice in
  let cs := [Trace.ReturnBook "M1" demo_isbn (day 2) (day 2) 172800 true;
             Trace.BorrowBook "M1" demo_isbn (day 3) 259200 true] in
  exists r' : Database.borrowing_record,
    Database.borrowing_records (Library.database (Trace.run_calls self cs))
      !! 0%nat
    = Some r'
    /\ Database.record_id r'
       = Database.record_id (demo_record 1 0 (day 14) None 0%float)
    /\ Database.member_id r'
       = Database.member_id (demo_record 1 0 (day 14) None 0%float)
    /\ Database.isbn r' = Database.isbn (demo_record 1 0 (day 14) None 0%float)
    /\ Database.borrow_date r'
       = Database.borrow_date (demo_record 1 0 (day 14) None 0%float)
    /\ Database.due_date r'
       = Database.due_date (demo_record 1 0 (day 14) None 0%float)
    /\ (Database.return_date (demo_record 1 0 (day 14) None 0%float) <> None ->
        r' = demo_record 1 0 (day 14) None 0%float).
Proof.
  intros self cs.
  apply (borrowing_records_are_kept cs self 0%nat
           (demo_record 1 0 (day 14) None 0%float)).
  vm_compute. reflexivity.
Defined.

Lemma run_calls_keep_record_ids (cs : list Trace.call) :
  forall self : Library.t,
  (Database.sqlite_sequence (Library.database self)
   = Z.of_nat (length (Database.borrowing_records (Library.database self)))
   /\ forall (k : nat) (r : Database.borrowing_record),
        Database.borrowing_records (Library.database self) !! k = Some r ->
        Database.record_id r = Z.of_nat k + 1) ->
  Database.sqlite_sequence (Library.database (Trace.run_calls self cs))
  = Z.of_nat (length (Database.borrowing_records
                        (Library.database (Trace.run_calls self cs))))
  /\ forall (k : nat) (r : Database.borrowing_record),
       Database.borrowing_records (Library.database (Trace.run_calls self cs))
         !! k = Some r ->
       Database.record_id r = Z.of_nat k + 1.
Proof.
  induction cs as [|c cs IH]; intros self Hinv; [exact Hinv|].
  apply (IH (Trace.run_call self c)). destruct Hinv as [Hseq Hids].
  destruct (run_call_records self c)
    as [[-> ->]|[(m & i & ts & due & -> & ->)|(m & i & ts & fine & -> & ->)]].
  - auto.
  - rewrite length_app. simpl. split; [lia|].
    intros k r Hk. apply lookup_app_Some in Hk as [Hk|[Hlen Hk]]; [auto|].
    destruct (k - length _)%nat eqn:E; simpl in Hk; [|discriminate].
    inversion Hk; subst r. simpl. lia.
  - rewrite length_map. split; [assumption|].
    intros k r Hk. rewrite list_lookup_fmap in Hk.
    destruct (Database.borrowing_records (Library.database self) !! k)
      as [r0|] eqn:Hk0; [|discriminate].
    simpl in Hk. inversion Hk; subst r.
    destruct (Database.is_open_for m i r0); simpl; auto.
Qed.

(** X24. In every state reached from a library opened on a new database,
    the borrowing records carry the ids 1, 2, 3, ... in the order they were
    written, so no id is used twice, and [sqlite_sequence] is the number of
    records. *)
Theorem reachable_record_ids_count_up (cs : list Trace.call) :
  let db := Library.database (Trace.run_calls Trace.fresh cs) in
  Database.sqlite_sequence db
  = Z.of_nat (length (Database.borrowing_records db))
  /\ forall (k : nat) (r : Database.borrowing_record),
       Database.borrowing_records db !! k = Some r ->
       Database.record_id r = Z.of_nat k + 1.
Proof.
  apply (run_calls_keep_record_ids cs Trace.fresh). split; [reflexivity|].
  intros k r Hk. simpl in Hk. rewrite lookup_nil in Hk. discriminate.
Qed.

(** X25. A book returned less than a day after its due date is not fined:
    [timedelta.days] of the delay is 0, the fine is 0.0, and [return_book]
    leaves [total_fines] as it was. *)
Theorem return_within_a_day_of_due_is_free
    (self : Library.t) (member_id isbn : string) (member : Member.t)
    (book : Book.t) (r : Database.borrowing_record) (now : datetime)
    (ts : Z) (io_ok : bool) :
  Library.members self !! member_id = Some member ->
  Library.books self !! isbn = Some book ->
  isbn ∈ Member.borrowed_books member ->
  Database.select_latest_open (Library.database self) member_id isbn = Some r ->
  now < Database.due_date r + US_PER_DAY ->
  Library._calculate_fine self member_id isbn now now = 0%float
  /\ exists member' : Member.t,
       Library.members
         (snd (Library.return_book self member_id isbn now now ts io_ok))
         !! member_id = Some member'
       /\ Member.total_fines member' = Member.total_fines member.
Proof.
  intros Hm Hb Hheld Hsel Hnow.
  assert (Hfine : Library._calculate_fine self member_id isbn now now = 0%float).
  { unfold Library._calculate_fine. rewrite Hsel.
    destruct (Database.due_date r <? now) eqn:Hdue; [|reflexivity].
    apply Z.ltb_lt in Hdue. unfold timedelta_days.
    rewrite Z.div_small by lia. reflexivity. }
  split; [exact Hfine|].
  rewrite (return_book_held self member_id isbn member book now now ts io_ok
             Hm Hb Hheld).
  rewrite Hfine. simpl. eexists. rewrite lookup_insert_eq.
  split; reflexivity.
Qed.

Lemma return_within_a_day_of_due_is_free_witness :
  let now := day 14 + 23 * 3600000000 in
  Library._calculate_fine demo_on_loan "M1" demo_isbn now now = 0%float
  /\ exists member' : Member.t,
       Library.members
         (snd (Library.return_book demo_on_loan "M1" demo_isbn now now
                 1292400 true))
         !! "M1" = Some member'
       /\ Member.total_fines member'
          = Member.total_fines (demo_member [demo_isbn] 0%float).
Proof.
  intros now.
  apply (return_within_a_day_of_due_is_free demo_on_loan "M1" demo_isbn
           (demo_member [demo_isbn] 0%float) (demo_book 1)
           (demo_record 1 0 (day 14) None 0%float) now 1292400 true).
  - vm_compute; reflexivity.
  - vm_compute; reflexivity.
  - apply list_elem_of_here.
  - vm_compute; reflexivity.
  - vm_compute; reflexivity.
Defined.
